(** * xontrib-fzf-widgets: a shallow embedding of [xontrib/fzf_widgets.py]

    The widgets are glue between the xonsh line editor and the [fzf]
    finder.  Everything they touch outside Python (the search path, the
    finder's answer, path completion, the shell history) is gathered in a
    [World] of oracles; everything they mutate (the process environment,
    the working directory, the edit buffer) is a field of [State], and
    each action is a state-and-exception computation that also records a
    chronological trace of what it did. *)

From Stdlib Require Import ZArith Ascii String.
From stdpp Require Import gmap list.

Local Open Scope Z_scope.

(** ** Python values *)

(** A Python [str] is a sequence of Unicode code points. *)
Abbreviation str := (list N).

Module Py.

(** A source literal, one code point per character. *)
Definition lit (s : string) : str :=
  List.map N_of_ascii (list_ascii_of_string s).

(** Truth value of a [str]: non-empty. *)
Definition truthy (s : str) : bool :=
  match s with [] => false | _ :: _ => true end.

Definition len (s : str) : Z := Z.of_nat (length s).

(** [str.isspace] on one code point (CPython's [_PyUnicode_IsWhitespace]). *)
Definition isspace (c : N) : bool :=
  ((9 <=? c) && (c <=? 13) || (28 <=? c) && (c <=? 32)
   || (c =? 133) || (c =? 160) || (c =? 5760)
   || (8192 <=? c) && (c <=? 8202)
   || (c =? 8232) || (c =? 8233) || (c =? 8239) || (c =? 8287)
   || (c =? 12288))%N.

Fixpoint lstrip (s : str) : str :=
  match s with
  | [] => []
  | c :: s' => if isspace c then lstrip s' else s
  end.

Definition rstrip (s : str) : str := rev (lstrip (rev s)).

(** [s.strip()] *)
Definition strip (s : str) : str := rstrip (lstrip s).

(** Line boundaries of [str.splitlines]. *)
Definition islinebreak (c : N) : bool :=
  ((10 <=? c) && (c <=? 13) || (28 <=? c) && (c <=? 30)
   || (c =? 133) || (c =? 8232) || (c =? 8233))%N.

Fixpoint splitlines_from (cur s : str) : list str :=
  match s with
  | [] => match cur with [] => [] | _ :: _ => [cur] end
  | c :: s' =>
      if islinebreak c then
        cur :: match s' with
               | d :: s'' =>
                   if ((c =? 13) && (d =? 10))%N then splitlines_from [] s''
                   else splitlines_from [] s'
               | [] => splitlines_from [] s'
               end
      else splitlines_from (cur ++ [c]) s'
  end.

(** [s.splitlines()] *)
Definition splitlines (s : str) : list str := splitlines_from [] s.

(** Index normalisation of a slice bound. *)
Definition clamp (n : Z) (i : Z) : Z :=
  if i <? 0 then Z.max 0 (i + n) else Z.min i n.

(** [s[a:b]] *)
Definition slice (s : str) (a b : Z) : str :=
  let a' := clamp (len s) a in
  let b' := clamp (len s) b in
  take (Z.to_nat (b' - a')) (drop (Z.to_nat a') s).

(** [s[a:]] *)
Definition slice_from (s : str) (a : Z) : str := slice s a (len s).

(** [s[:b]] *)
Definition slice_to (s : str) (b : Z) : str := slice s 0 b.

Fixpoint rfind_scan (c : N) (s : str) (i last : Z) : Z :=
  match s with
  | [] => last
  | x :: s' => rfind_scan c s' (i + 1) (if (x =? c)%N then i else last)
  end.

(** [s.rfind(c, a, b)] for a one-character needle [c]: the highest
    index in [s[a:b]] holding [c], or [-1]. *)
Definition rfind (s : str) (c : N) (a b : Z) : Z :=
  let a' := clamp (len s) a in
  rfind_scan c (slice s a b) a' (-1).

(** [s.rpartition(c)[2]]: what follows the last [c], or all of [s]. *)
Definition after_last (s : str) (c : N) : str :=
  slice_from s (rfind s c 0 (len s) + 1).

Definition startswith (s : str) (c : N) : bool :=
  match s with x :: _ => (x =? c)%N | [] => false end.

Definition endswith (s : str) (c : N) : bool := startswith (rev s) c.

(** [sep.join(l)] *)
Fixpoint join (sep : str) (l : list str) : str :=
  match l with
  | [] => []
  | [x] => x
  | x :: l' => x ++ sep ++ join sep l'
  end.

(** [os.path.join(a, b)] of [posixpath]. *)
Definition path_join (a b : str) : str :=
  if startswith b 47 then b
  else if negb (truthy a) || endswith a 47 then a ++ b
  else a ++ [47%N] ++ b.

End Py.

(** ** The outside world and the mutable state *)

(** A child process as the operating system sees it when it starts:
    argument vector, environment, working directory, and what it finds
    on its standard input ([None]: the terminal is inherited). *)
Record Child := {
  argv : list str;
  child_env : gmap str str;
  child_cwd : str;
  child_stdin : option str;
}.

(** What lies outside the program.  Each field is the answer the
    corresponding call would get. *)
Record World := {
  (** [xonsh.built_ins.subproc_captured_stdout]: standard output of a
      helper command ([which], [cat]). *)
  subproc_captured_stdout : list str -> str;
  (** What the finder prints once the user is done, and its exit status. *)
  finder_stdout : Child -> str;
  finder_status : Child -> Z;
  (** [re.findall] with the ssh host pattern (the word Host in any case,
      one whitespace character, then the rest of the line as the captured
      group): the host names of an ssh configuration text. *)
  findall_hosts : str -> list str;
  (** [xonsh.completers.path.complete_path(...)[0]], a set of completions. *)
  complete_path : str -> str -> Z -> Z -> list str;
  (** [os.path.normpath], [os.path.expanduser], [os.path.isdir]. *)
  normpath : str -> str;
  expanduser : str -> str;
  isdir : str -> bool;
  (** [XSH.history] ([None] when the shell has none) as the entries
      [all_items()] yields, each a dict. *)
  history : option (list (gmap str str));
  (** What [history show -0 all] writes to its [stdout]. *)
  history_show : str;
}.

(** [prompt_toolkit]'s [Buffer], as far as the widgets use it. *)
Record Buffer := {
  text : str;
  cursor_position : Z;
}.

(** What an action does, in the order it does it. *)
Inductive Event :=
| EvRun (args : list str)      (** a helper command was run and captured *)
| EvChdir (dir : str)          (** [os.chdir] *)
| EvSpawn (c : Child)          (** the finder was started *)
| EvWrite (data : str)         (** text written to the finder's input pipe *)
| EvCloseStdin                 (** the finder's input pipe was closed *)
| EvExit (status : Z)          (** the finder was waited for and has exited *)
| EvErase                      (** [event.cli.renderer.erase()] *)
| EvBuffer (b : Buffer).       (** the edit buffer was changed to [b] *)

Record State := {
  xsh_env : gmap str str;      (** [XSH.env] *)
  os_environ : gmap str str;   (** [os.environ], the process environment *)
  cwd : str;                   (** the process's working directory *)
  buffer : Buffer;             (** [event.current_buffer] *)
  trace : list Event;
}.

Inductive exn := Exception (msg : str).

Inductive result (A : Type) :=
| Ok (a : A)
| Raise (e : exn).
Arguments Ok {A} a.
Arguments Raise {A} e.

(** State and exceptions: a raise keeps the state reached so far. *)
Definition M (A : Type) : Type := State -> result A * State.

Definition ret {A} (a : A) : M A := fun st => (Ok a, st).

Definition bind {A B} (m : M A) (f : A -> M B) : M B := fun st =>
  match m st with
  | (Ok a, st') => f a st'
  | (Raise e, st') => (Raise e, st')
  end.

Declare Scope M_scope.
Delimit Scope M_scope with M.
Bind Scope M_scope with M.
Notation "x ← y ; z" := (bind y (fun x => z))
  (at level 20, y at level 100, z at level 200, only parsing) : M_scope.
Notation "x ;; z" := (bind x (fun _ => z))
  (at level 100, z at level 200, only parsing, right associativity) : M_scope.
Local Open Scope M_scope.

Definition raise {A} (e : exn) : M A := fun st => (Raise e, st).

Definition gets {A} (f : State -> A) : M A := fun st => (Ok (f st), st).

Definition modify (f : State -> State) : M unit := fun st => (Ok tt, f st).

Definition log (e : Event) : M unit :=
  modify (fun st =>
    {| xsh_env := xsh_env st; os_environ := os_environ st; cwd := cwd st;
       buffer := buffer st; trace := trace st ++ [e] |}).

(** [os.environ[k] = v] *)
Definition environ_set (k v : str) : M unit :=
  modify (fun st =>
    {| xsh_env := xsh_env st; os_environ := <[k := v]> (os_environ st);
       cwd := cwd st; buffer := buffer st; trace := trace st |}).

(** [os.getcwd()] *)
Definition getcwd : M str := gets cwd.

(** [os.chdir(dir)]: a relative [dir] is resolved against the current
    directory. *)
Definition chdir (dir : str) : M unit :=
  modify (fun st =>
    {| xsh_env := xsh_env st; os_environ := os_environ st;
       cwd := Py.path_join (cwd st) dir;
       buffer := buffer st; trace := trace st |});;
  log (EvChdir dir).

Definition set_buffer (b : Buffer) : M unit :=
  modify (fun st =>
    {| xsh_env := xsh_env st; os_environ := os_environ st; cwd := cwd st;
       buffer := b; trace := trace st |});;
  log (EvBuffer b).

(** [event.cli.renderer.erase()] *)
Definition erase : M unit := log EvErase.

(** ** The line editor's buffer *)

Module Ptk.

(** [Document.current_line_before_cursor] *)
Definition current_line_before_cursor (b : Buffer) : str :=
  Py.after_last (Py.slice_to (text b) (cursor_position b)) 10.

(** The [Buffer.text] setter keeps the cursor within the new text. *)
Definition set_text (value : str) (b : Buffer) : Buffer :=
  {| text := value;
     cursor_position :=
       if Py.len value <? cursor_position b then Py.len value
       else cursor_position b |}.

Definition set_cursor_position (p : Z) (b : Buffer) : Buffer :=
  {| text := text b; cursor_position := p |}.

(** [Buffer.delete_before_cursor(count)] *)
Definition delete_before_cursor (count : Z) (b : Buffer) : Buffer :=
  if 0 <? cursor_position b then
    let deleted :=
      Py.slice (text b) (cursor_position b - count) (cursor_position b) in
    {| text := Py.slice_to (text b) (cursor_position b - count)
               ++ Py.slice_from (text b) (cursor_position b);
       cursor_position := cursor_position b - Py.len deleted |}
  else b.

(** [Buffer.insert_text(data)] *)
Definition insert_text (data : str) (b : Buffer) : Buffer :=
  {| text := Py.slice_to (text b) (cursor_position b) ++ data
             ++ Py.slice_from (text b) (cursor_position b);
     cursor_position := cursor_position b + Py.len data |}.

End Ptk.

(** ** The widgets *)

Section Widgets.

Variable w : World.

(** [_run]: a helper command, run for its captured standard output. *)
Definition _run (args : list str) : M str :=
  log (EvRun args);;
  ret (subproc_captured_stdout w args).

(** [k in XSH.env] *)
Definition in_xsh_env (k : str) : M bool :=
  env ← gets xsh_env;
  ret (match env !! k with Some _ => true | None => false end).

Definition get_fzf_binary_name : M str :=
  let fzf_tmux_cmd := Py.lit "fzf-tmux" in
  tmux ← in_xsh_env (Py.lit "TMUX");
  if tmux then
    found ← _run [Py.lit "which"; Py.lit "fzf_tmux_cmd"];
    if Py.truthy found then ret fzf_tmux_cmd else ret (Py.lit "fzf")
  else ret (Py.lit "fzf").

Definition fzf_not_found : exn :=
  Exception (Py.lit
    "Could not determine path of fzf using `which`; maybe it is not installed or not on PATH?").

Definition get_fzf_binary_path : M str :=
  name ← get_fzf_binary_name;
  path ← _run [Py.lit "which"; name];
  if negb (Py.truthy path) then raise fzf_not_found else ret path.

(** [subprocess.Popen(args, stdin=PIPE, stdout=PIPE)]: the child inherits
    the process environment and working directory; its input pipe starts
    empty.  The value returned stands for the process handle, its
    [child_stdin] holding what has been written to the pipe so far. *)
Definition Popen (args : list str) : M Child :=
  env ← gets os_environ;
  dir ← getcwd;
  let proc := {| argv := args; child_env := env; child_cwd := dir;
                 child_stdin := Some [] |} in
  log (EvSpawn proc);;
  ret proc.

(** [proc.stdin.write(data)] *)
Definition stdin_write (proc : Child) (data : str) : M Child :=
  log (EvWrite data);;
  ret {| argv := argv proc; child_env := child_env proc;
          child_cwd := child_cwd proc;
          child_stdin := Some (default [] (child_stdin proc) ++ data) |}.

Definition get_fzf_proc : M Child :=
  path ← get_fzf_binary_path;
  let popen_args :=
    [path; Py.lit "--read0"; Py.lit "--tac"; Py.lit "--tiebreak=index";
     Py.lit "+m"; Py.lit "--reverse"; Py.lit "--height=40%";
     Py.lit "--bind=ctrl-r:toggle-sort"] in
  b ← gets buffer;
  let popen_args :=
    if 0 <? Py.len (text b) then popen_args ++ [Py.lit "-q ^" ++ text b]
    else popen_args in
  Popen popen_args.

Definition close_fzf_proc (proc : Child) : M unit :=
  log EvCloseStdin;;
  log (EvExit (finder_status w proc));;
  let choice := Py.strip (finder_stdout w proc) in
  erase;;
  if Py.truthy choice then
    b ← gets buffer;
    set_buffer (Ptk.set_text choice b);;
    b ← gets buffer;
    set_buffer (Ptk.set_cursor_position (Py.len choice) b)
  else ret tt.

Definition fzf_insert_history : M unit :=
  proc ← get_fzf_proc;
  proc ← stdin_write proc (history_show w);
  close_fzf_proc proc.

(** The loop of [fzf_insert_dir_history] over the history entries, with
    the set [read] of directories already written. *)
Fixpoint dir_history_loop (items : list (gmap str str)) (read : gset str)
    (proc : Child) : M Child :=
  match items with
  | [] => ret proc
  | entry :: items' =>
      let cwd := entry !! Py.lit "cwd" in
      match cwd with
      | Some d =>
          if Py.truthy d && negb (bool_decide (d ∈ read)) then
            proc ← stdin_write proc (d ++ [0%N]);
            dir_history_loop items' (read ∪ {[d]}) proc
          else dir_history_loop items' read proc
      | None => dir_history_loop items' read proc
      end
  end.

Definition fzf_insert_dir_history : M unit :=
  match history w with
  | None => ret tt
  | Some items =>
      proc ← get_fzf_proc;
      proc ← dir_history_loop items ∅ proc;
      close_fzf_proc proc
  end.

(** [subprocess.run(args, input=..., stdout=PIPE, env=...)]: start the
    finder in the current directory, wait for it, hand back its output. *)
Definition subprocess_run (args : list str) (input : option str)
    (env : gmap str str) : M str :=
  dir ← getcwd;
  let proc := {| argv := args; child_env := env; child_cwd := dir;
                 child_stdin := input |} in
  log (EvSpawn proc);;
  log (EvExit (finder_status w proc));;
  ret (finder_stdout w proc).

(** [env[dst] = XSH.env[src]], guarded by [src in XSH.env], where [env]
    is [os.environ] itself: line 112 binds the name [env] to the
    process environment, not to a copy of it. *)
Definition override_from_xsh_env (src dst : str) : M unit :=
  xenv ← gets xsh_env;
  match xenv !! src with
  | Some v => environ_set dst v
  | None => ret tt
  end.

(** The loop building the quoted command of [fzf_insert_file]. *)
Fixpoint quote_choices (path : str) (lines : list str) (command : str) : str :=
  match lines with
  | [] => command
  | c :: lines' =>
      quote_choices path lines'
        (command ++ Py.lit "'" ++ Py.path_join path (Py.strip c) ++ Py.lit "' ")
  end.

(** Lines 94 to 97: the word being typed, when the text before the
    cursor holds a space that is not its last character. *)
Definition prefix_of (before_cursor : str) : option str :=
  let delim_pos := Py.rfind before_cursor 32 0 (Py.len before_cursor) in
  if negb (delim_pos =? -1) && negb (delim_pos =? Py.len before_cursor - 1)
  then Some (Py.slice_from before_cursor (delim_pos + 1))
  else None.

Definition fzf_insert_file (dirs_only : bool) : M unit :=
  b ← gets buffer;
  let before_cursor := Ptk.current_line_before_cursor b in
  let prefix := prefix_of before_cursor in
  found ←
    match prefix with
    | Some pre =>
        if Py.truthy pre then
          let paths :=
            complete_path w (normpath w pre) before_cursor 0
              (Py.len before_cursor) in
          match paths with
          | [path] =>
              let expanded_path := expanduser w path in
              if isdir w expanded_path then
                cwd ← getcwd;
                chdir expanded_path;;
                ret (Some cwd, path)
              else ret (None, path)
          | _ => ret (None, [])
          end
        else ret (None, [])
    | None => ret (None, [])
    end;
  let cwd : option str := fst found in
  let path : str := snd found in
  (if dirs_only then
     override_from_xsh_env (Py.lit "fzf_find_dirs_command")
       (Py.lit "FZF_DEFAULT_COMMAND")
   else
     override_from_xsh_env (Py.lit "fzf_find_command")
       (Py.lit "FZF_DEFAULT_COMMAND"));;
  override_from_xsh_env (Py.lit "FZF_DEFAULT_OPTS") (Py.lit "FZF_DEFAULT_OPTS");;
  fzf ← get_fzf_binary_path;
  env ← gets os_environ;
  out ← subprocess_run
          [fzf; Py.lit "-m"; Py.lit "--reverse"; Py.lit "--height=40%"]
          None env;
  let choice := Py.strip out in
  match cwd with
  | Some d => if Py.truthy d then chdir d else ret tt
  | None => ret tt
  end;;
  erase;;
  if Py.truthy choice then
    (if Py.truthy path then
       b ← gets buffer;
       set_buffer (Ptk.delete_before_cursor (Py.len (default [] prefix)) b)
     else ret tt);;
    let command := quote_choices path (Py.splitlines choice) [] in
    b ← gets buffer;
    set_buffer (Ptk.insert_text (Py.strip command) b)
  else ret tt.

Definition fzf_prompt_from_string (string : str) : M str :=
  fzf ← get_fzf_binary_path;
  env ← gets os_environ;
  out ← subprocess_run
          [fzf; Py.lit "--tiebreak=index"; Py.lit "+m"; Py.lit "--reverse";
           Py.lit "--height=40%"]
          (Some string) env;
  ret (Py.strip out).

(** *** Key bindings *)

(** The five handlers that [custom_keybindings] defines. *)
Inductive Handler :=
| fzf_history
| fzf_ssh
| fzf_file
| fzf_dir
| fzf_dir_history.

(** What a key press runs: the body of each handler. *)
Definition call (h : Handler) : M unit :=
  match h with
  | fzf_history => fzf_insert_history
  | fzf_ssh =>
      config ← _run [Py.lit "cat"; Py.lit "~/.ssh/config";
                     Py.lit "/etc/ssh/ssh_config"];
      let items := Py.join [10%N] (findall_hosts w config) in
      choice ← fzf_prompt_from_string items;
      erase;;
      if Py.truthy choice then
        b ← gets buffer;
        set_buffer (Ptk.insert_text (Py.lit "ssh " ++ choice) b)
      else ret tt
  | fzf_file => fzf_insert_file false
  | fzf_dir => fzf_insert_file true
  | fzf_dir_history => fzf_insert_dir_history
  end.

End Widgets.

(** [handler(key_name)] applied to a function: the function is added to
    the bindings under the key configured in [XSH.env], or dropped when
    no key is configured. *)
Definition handler (env : gmap str str) (key_name : str) (h : Handler)
    (bindings : list (str * Handler)) : list (str * Handler) :=
  match env !! key_name with
  | Some key => if Py.truthy key then bindings ++ [(key, h)] else bindings
  | None => bindings
  end.

Definition custom_keybindings (env : gmap str str)
    (bindings : list (str * Handler)) : list (str * Handler) :=
  handler env (Py.lit "fzf_dir_history_binding") fzf_dir_history
    (handler env (Py.lit "fzf_dir_binding") fzf_dir
      (handler env (Py.lit "fzf_file_binding") fzf_file
        (handler env (Py.lit "fzf_ssh_binding") fzf_ssh
          (handler env (Py.lit "fzf_history_binding") fzf_history bindings)))).

(** ** Vocabulary of the statements *)

(** The state with [t] appended to its trace. *)
Definition extend (st : State) (t : list Event) : State :=
  {| xsh_env := xsh_env st; os_environ := os_environ st; cwd := cwd st;
     buffer := buffer st; trace := trace st ++ t |}.

(** *** Finder resolution, as a function of [XSH.env] *)

Definition which_probe : list str := [Py.lit "which"; Py.lit "fzf_tmux_cmd"].

(** The name [get_fzf_binary_name] settles on. *)
Definition binary_name_of (w : World) (xenv : gmap str str) : str :=
  match xenv !! Py.lit "TMUX" with
  | Some _ =>
      if Py.truthy (subproc_captured_stdout w which_probe)
      then Py.lit "fzf-tmux" else Py.lit "fzf"
  | None => Py.lit "fzf"
  end.

(** The helper commands [get_fzf_binary_path] runs. *)
Definition resolution_runs (w : World) (xenv : gmap str str) : list Event :=
  match xenv !! Py.lit "TMUX" with
  | Some _ => [EvRun which_probe]
  | None => []
  end ++ [EvRun [Py.lit "which"; binary_name_of w xenv]].

(** What [get_fzf_binary_path] returns or raises. *)
Definition binary_path_of (w : World) (xenv : gmap str str) : result str :=
  let path :=
    subproc_captured_stdout w [Py.lit "which"; binary_name_of w xenv] in
  if Py.truthy path then Ok path else Raise fzf_not_found.

(** The argument vector of [get_fzf_proc] for a buffer text [query]. *)
Definition popen_args (path query : str) : list str :=
  [path; Py.lit "--read0"; Py.lit "--tac"; Py.lit "--tiebreak=index";
   Py.lit "+m"; Py.lit "--reverse"; Py.lit "--height=40%";
   Py.lit "--bind=ctrl-r:toggle-sort"]
  ++ match query with [] => [] | _ :: _ => [Py.lit "-q ^" ++ query] end.

(** A child started from [st] with an empty input pipe. *)
Definition piped (args : list str) (st : State) : Child :=
  {| argv := args; child_env := os_environ st; child_cwd := cwd st;
     child_stdin := Some [] |}.

(** [os.environ] once [fzf_insert_file] has applied the overrides. *)
Definition overridden (dirs_only : bool) (xenv environ : gmap str str)
    : gmap str str :=
  let command :=
    xenv !! (if dirs_only then Py.lit "fzf_find_dirs_command"
             else Py.lit "fzf_find_command") in
  let environ :=
    match command with
    | Some v => <[Py.lit "FZF_DEFAULT_COMMAND" := v]> environ
    | None => environ
    end in
  match xenv !! Py.lit "FZF_DEFAULT_OPTS" with
  | Some v => <[Py.lit "FZF_DEFAULT_OPTS" := v]> environ
  | None => environ
  end.

(** *** The directory stream, in the words of the specification *)

(** Each value kept at its first occurrence, later repeats dropped. *)
Fixpoint first_occurrences (l : list str) : list str :=
  match l with
  | [] => []
  | x :: l' => x :: filter (fun y => y ≠ x) (first_occurrences l')
  end.

(** The working directories the history records: the [cwd] of every
    entry that has one, when it is not the empty string. *)
Definition recorded_dirs (items : list (gmap str str)) : list str :=
  filter (fun d => d ≠ []) (omap (fun entry => entry !! Py.lit "cwd") items).

Definition nul_terminated (d : str) : str := d ++ [0%N].

Definition written_data (e : Event) : option str :=
  match e with EvWrite data => Some data | _ => None end.

(** The records written to the finder's input, in order. *)
Definition writes (t : list Event) : list str := omap written_data t.

Definition spawned_child (e : Event) : option Child :=
  match e with EvSpawn c => Some c | _ => None end.

(** The finder processes started, in order. *)
Definition spawned (t : list Event) : list Child := omap spawned_child t.

(** *** The redraw discipline *)

(** Where an action stands with respect to its finder child. *)
Inductive Phase := Before | Exited | Redrawn.

(** An event is acceptable in a phase when the display is erased only
    right after the child's exit, and the buffer changes only after
    that. *)
Definition step (p : Phase) (e : Event) : option Phase :=
  match e, p with
  | EvExit _, Before => Some Exited
  | EvExit _, _ => None
  | EvErase, Exited => Some Redrawn
  | EvErase, _ => None
  | EvBuffer _, Redrawn => Some Redrawn
  | EvBuffer _, _ => None
  | _, _ => Some p
  end.

Fixpoint run (p : Phase) (t : list Event) : option Phase :=
  match t with
  | [] => Some p
  | e :: t' => match step p e with Some q => run q t' | None => None end
  end.

(** Neither a child exit, nor a redraw, nor a buffer change. *)
Definition quiet (e : Event) : Prop :=
  match e with EvExit _ | EvErase | EvBuffer _ => False | _ => True end.

(** Neither a child exit nor a redraw. *)
Definition settled (e : Event) : Prop :=
  match e with EvExit _ | EvErase => False | _ => True end.

(** A trace in which every child exit is followed by exactly one redraw,
    with no buffer change before that redraw. *)
Inductive redrawn_once : list Event -> Prop :=
| no_child_exit t :
    Forall quiet t -> redrawn_once t
| erase_after_exit pre status mid post :
    Forall quiet pre -> Forall quiet mid -> Forall settled post ->
    redrawn_once (pre ++ EvExit status :: mid ++ EvErase :: post).

(** [m], started in phase [p], only appends acceptable events; it ends
    in phase [q] when it returns and never raises between a child's exit
    and the redraw. *)
Definition advances {A} (p : Phase) (m : M A) (q : Phase) : Prop :=
  forall st, exists t q',
    trace (snd (m st)) = trace st ++ t /\ run p t = Some q' /\
    match fst (m st) with Ok _ => q' = q | Raise _ => q' ≠ Exited end.

(** *** Frames *)

(** [m] leaves the component [f] of the state as it found it, however
    it ends. *)
Definition preserves {A B} (f : State -> B) (m : M A) : Prop :=
  forall st, f (snd (m st)) = f st.

(** *** Key bindings, by configuration key *)

(** The [XSH.env] key under which each handler looks for its key chord. *)
Definition binding_name (h : Handler) : str :=
  match h with
  | fzf_history => Py.lit "fzf_history_binding"
  | fzf_ssh => Py.lit "fzf_ssh_binding"
  | fzf_file => Py.lit "fzf_file_binding"
  | fzf_dir => Py.lit "fzf_dir_binding"
  | fzf_dir_history => Py.lit "fzf_dir_history_binding"
  end.

(** *** The life of the finder process *)

Inductive Life := Idle | Running | Closed | Reaped.

(** A finder is started at most once; its pipe is written and closed
    only while it runs; it is waited for after that. *)
Definition life_step (l : Life) (e : Event) : option Life :=
  match e, l with
  | EvSpawn _, Idle => Some Running
  | EvSpawn _, _ => None
  | EvWrite _, Running => Some Running
  | EvWrite _, _ => None
  | EvCloseStdin, Running => Some Closed
  | EvCloseStdin, _ => None
  | EvExit _, Running => Some Reaped
  | EvExit _, Closed => Some Reaped
  | EvExit _, _ => None
  | _, _ => Some l
  end.

Fixpoint life_run (l : Life) (t : list Event) : option Life :=
  match t with
  | [] => Some l
  | e :: t' =>
      match life_step l e with Some l' => life_run l' t' | None => None end
  end.

(** Nothing that concerns a child process. *)
Definition childless (e : Event) : Prop :=
  match e with
  | EvSpawn _ | EvWrite _ | EvCloseStdin | EvExit _ => False
  | _ => True
  end.

(** Neither the start nor the end of a child. *)
Definition within_child (e : Event) : Prop :=
  match e with EvSpawn _ | EvExit _ => False | _ => True end.

(** A trace with no child at all, or with one child that is started,
    possibly fed, and waited for, all pipe traffic lying in between. *)
Inductive one_child_waited : list Event -> Prop :=
| no_child t :
    Forall childless t -> one_child_waited t
| child_waited pre proc mid status post :
    Forall childless pre -> Forall within_child mid -> Forall childless post ->
    one_child_waited (pre ++ EvSpawn proc :: mid ++ EvExit status :: post).

(** [m], started with the child in state [l], keeps to [life_step]; it
    ends with the child in state [l'] when it returns, and does not
    raise while a child is alive. *)
Definition lives {A} (l : Life) (m : M A) (l' : Life) : Prop :=
  forall st, exists t q,
    trace (snd (m st)) = trace st ++ t /\ life_run l t = Some q /\
    match fst (m st) with
    | Ok _ => q = l'
    | Raise _ => q = Idle \/ q = Reaped
    end.

(** *** The inserted command *)

(** One choice of the file widget, as it is inserted. *)
Definition quoted (path c : str) : str :=
  Py.lit "'" ++ Py.path_join path (Py.strip c) ++ Py.lit "'".

(** The exit statuses waited for, in order. *)
Definition exit_status (e : Event) : option Z :=
  match e with EvExit status => Some status | _ => None end.

(** ** Concrete worlds *)

Module Sample.

(** A machine with [fzf] and [fzf-tmux] installed, one directory [foo/]
    completing the word [fo], and three history entries. *)
Definition which (args : list str) : str :=
  if decide (args = [Py.lit "which"; Py.lit "fzf"]) then Py.lit "/usr/bin/fzf"
  else if decide (args = [Py.lit "which"; Py.lit "fzf-tmux"])
  then Py.lit "/usr/bin/fzf-tmux"
  else [].

Definition entry (dir : string) : gmap str str :=
  {[ Py.lit "inp" := Py.lit "ls"; Py.lit "cwd" := Py.lit dir ]}.

Definition world (picked : string) : World :=
  {| subproc_captured_stdout := which;
     finder_stdout := fun _ => Py.lit picked;
     finder_status := fun _ => 0;
     findall_hosts := fun _ => [];
     complete_path := fun pre _ _ _ =>
       if decide (pre = Py.lit "fo") then [Py.lit "foo/"] else [];
     normpath := fun p => p;
     expanduser := fun p => p;
     isdir := fun p => bool_decide (p = Py.lit "foo/");
     history := Some [entry "/a"; entry "/b"; entry "/a"];
     history_show := [] |}.

(** The same machine without any finder on the search path. *)
Definition bare_world : World :=
  {| subproc_captured_stdout := fun _ => [];
     finder_stdout := fun _ => [];
     finder_status := fun _ => 0;
     findall_hosts := fun _ => [];
     complete_path := fun _ _ _ _ => [];
     normpath := fun p => p;
     expanduser := fun p => p;
     isdir := fun _ => false;
     history := None;
     history_show := [] |}.

(** [w] with an empty search path: [which] finds nothing. *)
Definition without_finder (w : World) : World :=
  {| subproc_captured_stdout := fun _ => [];
     finder_stdout := finder_stdout w;
     finder_status := finder_status w;
     findall_hosts := findall_hosts w;
     complete_path := complete_path w;
     normpath := normpath w;
     expanduser := expanduser w;
     isdir := isdir w;
     history := history w;
     history_show := history_show w |}.

Definition state (xenv : gmap str str) (line : string) : State :=
  {| xsh_env := xenv; os_environ := ∅; cwd := Py.lit "/home/me";
     buffer := {| text := Py.lit line;
                  cursor_position := Py.len (Py.lit line) |};
     trace := [] |}.

End Sample.

(** ** Python helpers on examples *)

Example lit_fzf : Py.lit "fzf" = [102; 122; 102]%N.
Proof. reflexivity. Qed.

Example strip_choice : Py.strip (Py.lit "  ls -l
") = Py.lit "ls -l".
Proof. reflexivity. Qed.

Example splitlines_two : Py.splitlines ([97; 13; 10; 98; 10]%N) = [[97]; [98]]%N.
Proof. reflexivity. Qed.

Example rfind_cat_fo : Py.rfind (Py.lit "cat fo") 32 0 6 = 3.
Proof. reflexivity. Qed.

Example rfind_none : Py.rfind (Py.lit "fo") 32 0 2 = -1.
Proof. reflexivity. Qed.

Example after_last_none : Py.after_last (Py.lit "fo") 10 = Py.lit "fo".
Proof. reflexivity. Qed.

Example path_join_dir : Py.path_join (Py.lit "foo/") (Py.lit "bar") = Py.lit "foo/bar".
Proof. reflexivity. Qed.

Example prefix_of_cat_fo : prefix_of (Py.lit "cat fo") = Some (Py.lit "fo").
Proof. reflexivity. Qed.

Example first_occurrences_aba :
  first_occurrences [Py.lit "/a"; Py.lit "/b"; Py.lit "/a"]
  = [Py.lit "/a"; Py.lit "/b"].
Proof. reflexivity. Qed.

(** ** Basic facts *)

Ltac run_state := cbn [xsh_env os_environ cwd buffer trace fst snd].

Lemma extend_nil st : extend st [] = st.
Proof. destruct st; unfold extend; simpl. by rewrite app_nil_r. Qed.

Lemma extend_extend st a b : extend (extend st a) b = extend st (a ++ b).
Proof. unfold extend; simpl. by rewrite app_assoc. Qed.

Lemma truthy_nonempty (s : str) : Py.truthy s = true <-> s ≠ [].
Proof. by destruct s. Qed.

Lemma path_join_absolute a b :
  Py.startswith b 47 = true -> Py.path_join a b = b.
Proof. intros H. unfold Py.path_join. by rewrite H. Qed.

Lemma rfind_scan_bounds c s i last :
  Py.rfind_scan c s i last = last \/
  i <= Py.rfind_scan c s i last < i + Py.len s.
Proof.
  revert i last. induction s as [|x s IH]; intros i last; [by left|].
  cbn [Py.rfind_scan]. unfold Py.len in *. cbn [length].
  destruct (IH (i + 1) (if (x =? c)%N then i else last)) as [->|H].
  - destruct (x =? c)%N; [right; lia | by left].
  - right. lia.
Qed.

Lemma slice_whole s : Py.slice s 0 (Py.len s) = s.
Proof.
  unfold Py.slice, Py.clamp, Py.len.
  replace (0 <? 0) with false by done.
  destruct (Z.ltb_spec (Z.of_nat (length s)) 0); [lia|].
  rewrite Z.min_id, Z.min_l by lia. cbn [Z.to_nat drop].
  rewrite Z.sub_0_r, Nat2Z.id. apply firstn_all.
Qed.

(** The word [fzf_insert_file] completes is never empty. *)
Lemma prefix_of_nonempty before_cursor pre :
  prefix_of before_cursor = Some pre -> pre ≠ [].
Proof.
  unfold prefix_of, Py.rfind. rewrite slice_whole.
  assert (Py.clamp (Py.len before_cursor) 0 = 0) as ->.
  { unfold Py.clamp, Py.len. cbn. lia. }
  destruct (rfind_scan_bounds 32 before_cursor 0 (-1)) as [->|H]; [done|].
  set (r := Py.rfind_scan 32 before_cursor 0 (-1)) in *.
  destruct (Z.eqb_spec r (-1)); [done|].
  destruct (Z.eqb_spec r (Py.len before_cursor - 1)); [done|].
  cbn [negb andb]. intros [= <-] Hnil.
  apply (f_equal length) in Hnil. revert Hnil.
  unfold Py.slice_from, Py.slice, Py.clamp.
  destruct (Z.ltb_spec (r + 1) 0); [lia|].
  destruct (Z.ltb_spec (Py.len before_cursor) 0); [unfold Py.len in *; lia|].
  rewrite length_take, length_drop. unfold Py.len in *. cbn [length]. lia.
Qed.

(** ** Resolving the finder *)

Lemma get_fzf_binary_name_eq w st :
  fst (get_fzf_binary_name w st) = Ok (binary_name_of w (xsh_env st)).
Proof.
  unfold get_fzf_binary_name, binary_name_of, in_xsh_env, _run, bind, gets,
    ret, log, modify, which_probe.
  run_state.
  destruct (xsh_env st !! Py.lit "TMUX"); run_state; [|done].
  by destruct (Py.truthy _).
Qed.

(** What the code does: the variant is chosen exactly when [TMUX] is set
    and [which fzf_tmux_cmd] prints something. *)
Lemma binary_name_of_tmux_iff w xenv :
  binary_name_of w xenv = Py.lit "fzf-tmux" <->
  is_Some (xenv !! Py.lit "TMUX") /\ subproc_captured_stdout w which_probe ≠ [].
Proof.
  unfold binary_name_of.
  destruct (xenv !! Py.lit "TMUX") as [v|].
  - destruct (subproc_captured_stdout w which_probe) as [|c s]; simpl.
    + split; [discriminate | intros [_ H]; by destruct H].
    + split; [split; [by eexists | discriminate] | done].
  - split; [discriminate | intros [[v H] _]; discriminate].
Qed.

Lemma get_fzf_binary_path_eq w st :
  get_fzf_binary_path w st =
  (binary_path_of w (xsh_env st), extend st (resolution_runs w (xsh_env st))).
Proof.
  unfold get_fzf_binary_path, get_fzf_binary_name, binary_path_of,
    resolution_runs, binary_name_of, in_xsh_env, _run, bind, gets, ret,
    raise, log, modify, extend, which_probe.
  run_state.
  destruct (xsh_env st !! Py.lit "TMUX"); run_state;
    repeat (match goal with
            | |- context [Py.truthy ?x] => destruct (Py.truthy x)
            end; cbn [xsh_env os_environ cwd buffer trace negb]);
    rewrite <- ?app_assoc; reflexivity.
Qed.

Lemma resolved_path w st fzf :
  fst (get_fzf_binary_path w st) = Ok fzf ->
  binary_path_of w (xsh_env st) = Ok fzf.
Proof. by rewrite get_fzf_binary_path_eq. Qed.

Lemma binary_path_of_missing w xenv :
  (forall name, subproc_captured_stdout w [Py.lit "which"; name] = []) ->
  binary_path_of w xenv = Raise fzf_not_found.
Proof. intros H. unfold binary_path_of. by rewrite H. Qed.

Lemma writes_resolution_runs w xenv : writes (resolution_runs w xenv) = [].
Proof. unfold resolution_runs. by destruct (xenv !! Py.lit "TMUX"). Qed.

(** C2, at an input where the code departs from it: inside a tmux
    session, with [fzf-tmux] on the search path, [get_fzf_binary_name]
    still answers [fzf], because line 17 asks [which] for the literal
    name [fzf_tmux_cmd] instead of the variant's name. *)
Theorem get_fzf_binary_name_probes_wrong_name :
  let w := Sample.world "" in
  let st :=
    Sample.state {[ Py.lit "TMUX" := Py.lit "/tmp/tmux-1000/default,42,0" ]} "" in
  is_Some (xsh_env st !! Py.lit "TMUX") /\
  subproc_captured_stdout w [Py.lit "which"; Py.lit "fzf-tmux"]
    = Py.lit "/usr/bin/fzf-tmux" /\
  fst (get_fzf_binary_name w st) = Ok (Py.lit "fzf").
Proof. vm_compute. split; [by eexists | done]. Qed.

(** ** Streaming mode *)

Lemma close_fzf_proc_eq w proc st :
  close_fzf_proc w proc st =
  let choice := Py.strip (finder_stdout w proc) in
  let redraw := [EvCloseStdin; EvExit (finder_status w proc); EvErase] in
  (Ok tt,
   if Py.truthy choice then
     let b1 := Ptk.set_text choice (buffer st) in
     let b2 := Ptk.set_cursor_position (Py.len choice) b1 in
     {| xsh_env := xsh_env st; os_environ := os_environ st; cwd := cwd st;
        buffer := b2;
        trace := trace st ++ redraw ++ [EvBuffer b1; EvBuffer b2] |}
   else extend st redraw).
Proof.
  unfold close_fzf_proc, erase, set_buffer, bind, gets, ret, log, modify, extend.
  run_state.
  destruct (Py.truthy _); run_state; rewrite <- ?app_assoc; reflexivity.
Qed.

(** C4: when the finder's output is empty once stripped, whatever its
    exit status, [close_fzf_proc] returns normally and leaves the
    buffer's text and cursor position as they were. *)
Theorem close_fzf_proc_empty_output w proc st status :
  finder_status w proc = status ->
  Py.strip (finder_stdout w proc) = [] ->
  fst (close_fzf_proc w proc st) = Ok tt /\
  text (buffer (snd (close_fzf_proc w proc st))) = text (buffer st) /\
  cursor_position (buffer (snd (close_fzf_proc w proc st)))
    = cursor_position (buffer st).
Proof.
  intros _ H. rewrite close_fzf_proc_eq. cbn zeta. by rewrite H.
Qed.

Lemma close_fzf_proc_empty_output_witness :
  let w := Sample.world "  " in
  let st := Sample.state ∅ "git st" in
  let proc := piped (popen_args (Py.lit "/usr/bin/fzf") (text (buffer st))) st in
  Py.strip (finder_stdout w proc) = [] /\
  text (buffer (snd (close_fzf_proc w proc st))) = Py.lit "git st" /\
  cursor_position (buffer (snd (close_fzf_proc w proc st))) = 6.
Proof.
  intros w st proc. split; [reflexivity|].
  apply (close_fzf_proc_empty_output w proc st 0); reflexivity.
Defined.

(** C5: when the finder's stripped output is not empty, the buffer's text
    becomes that stripped output and the cursor moves to its length. *)
Theorem close_fzf_proc_choice w proc st :
  Py.strip (finder_stdout w proc) ≠ [] ->
  fst (close_fzf_proc w proc st) = Ok tt /\
  text (buffer (snd (close_fzf_proc w proc st)))
    = Py.strip (finder_stdout w proc) /\
  cursor_position (buffer (snd (close_fzf_proc w proc st)))
    = Py.len (Py.strip (finder_stdout w proc)).
Proof.
  intros H. rewrite close_fzf_proc_eq. cbn zeta.
  by destruct (Py.strip (finder_stdout w proc)).
Qed.

Lemma close_fzf_proc_choice_witness :
  let w := Sample.world " git status " in
  let st := Sample.state ∅ "git st" in
  let proc := piped (popen_args (Py.lit "/usr/bin/fzf") (text (buffer st))) st in
  Py.strip (finder_stdout w proc) ≠ [] /\
  text (buffer (snd (close_fzf_proc w proc st))) = Py.lit "git status" /\
  cursor_position (buffer (snd (close_fzf_proc w proc st))) = 10.
Proof.
  intros w st proc.
  assert (Py.strip (finder_stdout w proc) ≠ []) as H by discriminate.
  split; [exact H|].
  exact (proj2 (close_fzf_proc_choice w proc st H)).
Defined.

Lemma get_fzf_proc_eq w st :
  get_fzf_proc w st =
  match binary_path_of w (xsh_env st) with
  | Ok path =>
      let proc := piped (popen_args path (text (buffer st))) st in
      (Ok proc, extend st (resolution_runs w (xsh_env st) ++ [EvSpawn proc]))
  | Raise e => (Raise e, extend st (resolution_runs w (xsh_env st)))
  end.
Proof.
  unfold get_fzf_proc, bind. rewrite get_fzf_binary_path_eq.
  destruct (binary_path_of w (xsh_env st)) as [path|e]; [|done].
  unfold Popen, getcwd, bind, gets, ret, log, modify, extend, piped, popen_args.
  run_state.
  destruct (text (buffer st)) as [|c q];
    cbn [Py.len length Z.ltb Z.of_nat Z.compare];
    run_state; rewrite <- ?app_assoc; reflexivity.
Qed.

(** C9: once the finder is resolved, [get_fzf_proc] starts it with the
    eight fixed arguments followed, when the buffer text is not empty, by
    the single argument made of [-q ^] and the buffer text; with an
    empty buffer nothing follows the fixed arguments. *)
Theorem get_fzf_proc_query w st fzf :
  fst (get_fzf_binary_path w st) = Ok fzf ->
  exists proc st',
    get_fzf_proc w st = (Ok proc, st') /\
    last (trace st') = Some (EvSpawn proc) /\
    (text (buffer st) ≠ [] ->
     argv proc =
       [fzf; Py.lit "--read0"; Py.lit "--tac"; Py.lit "--tiebreak=index";
        Py.lit "+m"; Py.lit "--reverse"; Py.lit "--height=40%";
        Py.lit "--bind=ctrl-r:toggle-sort";
        Py.lit "-q ^" ++ text (buffer st)]) /\
    (text (buffer st) = [] ->
     argv proc =
       [fzf; Py.lit "--read0"; Py.lit "--tac"; Py.lit "--tiebreak=index";
        Py.lit "+m"; Py.lit "--reverse"; Py.lit "--height=40%";
        Py.lit "--bind=ctrl-r:toggle-sort"]).
Proof.
  intros H%resolved_path. rewrite get_fzf_proc_eq, H. cbn zeta.
  eexists _, _. split; [reflexivity|]. split.
  - unfold extend; run_state. by rewrite !app_assoc, last_snoc.
  - unfold piped, popen_args; cbn [argv].
    split; intros Hq; by destruct (text (buffer st)).
Qed.

Lemma get_fzf_proc_query_witness :
  let w := Sample.world "" in
  let st := Sample.state ∅ "git" in
  fst (get_fzf_binary_path w st) = Ok (Py.lit "/usr/bin/fzf") /\
  exists proc st',
    get_fzf_proc w st = (Ok proc, st') /\
    last (argv proc) = Some (Py.lit "-q ^git").
Proof.
  intros w st. split; [reflexivity|].
  destruct (get_fzf_proc_query w st (Py.lit "/usr/bin/fzf") eq_refl)
    as (proc & st' & Hrun & _ & Hquery & _).
  exists proc, st'. split; [exact Hrun|].
  rewrite Hquery; [reflexivity | discriminate].
Defined.

(** ** The directory history *)

(** C10: without a history object, [fzf_insert_dir_history] returns at
    once and the whole state (buffer and trace included) is untouched:
    no [which] was run and no finder was started. *)
Theorem fzf_insert_dir_history_no_history w st :
  history w = None ->
  fzf_insert_dir_history w st = (Ok tt, st).
Proof. intros H. unfold fzf_insert_dir_history. by rewrite H. Qed.

Lemma fzf_insert_dir_history_no_history_witness :
  let st := Sample.state ∅ "cd " in
  history Sample.bare_world = None /\
  fzf_insert_dir_history Sample.bare_world st = (Ok tt, st) /\
  trace (snd (fzf_insert_dir_history Sample.bare_world st)) = [].
Proof.
  intros st. split; [reflexivity|].
  rewrite (fzf_insert_dir_history_no_history Sample.bare_world st eq_refl).
  split; reflexivity.
Defined.

Lemma elem_of_first_occurrences l x : x ∈ first_occurrences l <-> x ∈ l.
Proof.
  induction l as [|y l IH]; [done|]. cbn [first_occurrences].
  rewrite !elem_of_cons, list_elem_of_filter, IH.
  destruct (decide (x = y)) as [->|]; intuition congruence.
Qed.

Lemma NoDup_first_occurrences l : NoDup (first_occurrences l).
Proof.
  induction l as [|y l IH]; cbn [first_occurrences]; [constructor|].
  constructor; [|by apply NoDup_filter].
  rewrite list_elem_of_filter. by intros [H _].
Qed.

(** Read from left to right: a value joins the end of the result the
    first time it is met, and only then. *)
Lemma first_occurrences_snoc l x :
  first_occurrences (l ++ [x]) =
  if decide (x ∈ l) then first_occurrences l else first_occurrences l ++ [x].
Proof.
  induction l as [|y l IH]; [done|].
  cbn [app first_occurrences]. rewrite IH.
  destruct (decide (x ∈ l)) as [Hin|Hin].
  - rewrite decide_True by (by right). done.
  - rewrite filter_app. destruct (decide (x = y)) as [->|Hne].
    + rewrite decide_True by (by left).
      rewrite (filter_cons_False _ y []) by (by intros H).
      by rewrite app_nil_r.
    + rewrite decide_False by (by intros [?|?]%elem_of_cons).
      by rewrite (filter_cons_True _ x []) by done.
Qed.

Lemma elem_of_recorded_dirs items d :
  d ∈ recorded_dirs items <->
  d ≠ [] /\ exists entry, entry ∈ items /\ entry !! Py.lit "cwd" = Some d.
Proof.
  unfold recorded_dirs. by rewrite list_elem_of_filter, list_elem_of_omap.
Qed.

Lemma filter_unseen_empty (read : gset str) (l : list str) :
  read = ∅ -> filter (fun d => d ∉ read) l = l.
Proof.
  intros ->. induction l as [|x l IH]; [done|].
  rewrite filter_cons_True by apply not_elem_of_empty. by rewrite IH.
Qed.

Lemma writes_app t1 t2 : writes (t1 ++ t2) = writes t1 ++ writes t2.
Proof. apply omap_app. Qed.

Lemma writes_EvWrite l : writes (EvWrite <$> l) = l.
Proof. induction l as [|x l IH]; [done|]. cbn. by f_equal. Qed.

(** The loop writes the directories not yet in [read], each at its first
    occurrence, and the pipe ends up holding them one after the other. *)
Lemma dir_history_loop_eq items read proc fed st :
  child_stdin proc = Some fed ->
  exists proc',
    dir_history_loop items read proc st =
    (Ok proc',
     extend st (EvWrite <$> (nul_terminated <$>
       filter (fun d => d ∉ read) (first_occurrences (recorded_dirs items)))))
    /\ child_stdin proc' =
       Some (fed ++ mjoin (nul_terminated <$>
         filter (fun d => d ∉ read) (first_occurrences (recorded_dirs items)))).
Proof.
  revert read proc fed st.
  induction items as [|entry items IH]; intros read proc fed st Hfed.
  - exists proc. cbn. by rewrite extend_nil, app_nil_r.
  - cbn [dir_history_loop]. unfold recorded_dirs. cbn [omap list_omap].
    fold (omap (fun entry : gmap str str => entry !! Py.lit "cwd") items).
    destruct (entry !! Py.lit "cwd") as [d|]; [|by apply IH].
    destruct (Py.truthy d) eqn:Hd.
    2:{ assert (d = []) as -> by (by destruct d).
        rewrite filter_cons_False by (by intros H). by apply IH. }
    apply truthy_nonempty in Hd.
    rewrite filter_cons_True by done. cbn [first_occurrences andb].
    fold (recorded_dirs items).
    destruct (bool_decide (d ∈ read)) eqn:Hr; cbn [negb].
    + apply bool_decide_eq_true in Hr.
      rewrite filter_cons_False by (intros H; by apply H).
      rewrite list_filter_filter_l by (intros x Hx ->; by apply Hx).
      by apply IH.
    + apply bool_decide_eq_false in Hr.
      rewrite filter_cons_True by done.
      unfold stdin_write, bind, log, modify, ret. run_state.
      rewrite Hfed. cbn [default]. unfold id.
      destruct (IH (read ∪ {[d]})
        {| argv := argv proc; child_env := child_env proc;
           child_cwd := child_cwd proc;
           child_stdin := Some (fed ++ d ++ [0%N]) |}
        (fed ++ d ++ [0%N])
        (extend st [EvWrite (d ++ [0%N])]) eq_refl) as (proc' & Hrun & Hin).
      exists proc'.
      assert (filter (fun x => x ∉ read ∪ {[d]})
                (first_occurrences (recorded_dirs items))
              = filter (fun x => x ∉ read)
                  (filter (fun y => y ≠ d)
                     (first_occurrences (recorded_dirs items)))) as Hf.
      { rewrite list_filter_filter. apply list_filter_iff. intros x.
        by rewrite not_elem_of_union, not_elem_of_singleton. }
      rewrite Hf in Hrun, Hin. split.
      * unfold extend in Hrun at 1. run_state. rewrite Hrun.
        by rewrite extend_extend.
      * rewrite Hin. cbn [fmap list_fmap mjoin list_join].
        unfold nul_terminated at 2. by rewrite <- !app_assoc.
Qed.

(** C6: with a history and a resolvable finder, [fzf_insert_dir_history]
    returns normally and writes to the finder's input exactly the
    recorded working directories, each kept at its first occurrence and
    in that order, each followed by NUL; no directory is written twice,
    and a directory is written exactly when some entry records it. *)
Theorem fzf_insert_dir_history_stream w st items fzf :
  history w = Some items ->
  fst (get_fzf_binary_path w st) = Ok fzf ->
  let dirs := first_occurrences (recorded_dirs items) in
  let outcome := fzf_insert_dir_history w st in
  fst outcome = Ok tt /\
  writes (trace (snd outcome)) = writes (trace st) ++ (nul_terminated <$> dirs) /\
  NoDup dirs /\
  (forall d, d ∈ dirs <->
     d ≠ [] /\ exists entry, entry ∈ items /\ entry !! Py.lit "cwd" = Some d).
Proof.
  intros Hhist Hfzf%resolved_path dirs outcome.
  split; [|split; [|split]].
  3: apply NoDup_first_occurrences.
  3: { intros d. unfold dirs.
       by rewrite elem_of_first_occurrences, elem_of_recorded_dirs. }
  all: subst outcome; unfold fzf_insert_dir_history; rewrite Hhist;
    unfold bind; rewrite get_fzf_proc_eq, Hfzf; lazy beta iota zeta;
    match goal with
    | |- context [dir_history_loop ?l ∅ ?p ?s] =>
        destruct (dir_history_loop_eq l ∅ p [] s eq_refl) as (proc' & -> & _)
    end;
    rewrite close_fzf_proc_eq; lazy beta iota zeta.
  - done.
  - rewrite filter_unseen_empty by done. fold dirs.
    destruct (Py.truthy _); unfold extend; run_state;
      rewrite !writes_app, writes_EvWrite; cbn;
      rewrite writes_resolution_runs, !app_nil_r; done.
Qed.

(** The specification's example: the directories [/a], [/b], [/a] reach
    the finder as two records. *)
Lemma fzf_insert_dir_history_stream_witness :
  let w := Sample.world "" in
  let st := Sample.state ∅ "" in
  history w = Some [Sample.entry "/a"; Sample.entry "/b"; Sample.entry "/a"] /\
  fst (get_fzf_binary_path w st) = Ok (Py.lit "/usr/bin/fzf") /\
  writes (trace (snd (fzf_insert_dir_history w st)))
    = [Py.lit "/a" ++ [0%N]; Py.lit "/b" ++ [0%N]].
Proof.
  intros w st. split; [reflexivity|]. split; [reflexivity|].
  exact (proj1 (proj2 (fzf_insert_dir_history_stream w st _
                         (Py.lit "/usr/bin/fzf") eq_refl eq_refl))).
Defined.

(** A cancelled selection leaves the buffer alone in both streaming
    widgets, whether or not the finder could be started. *)
Lemma streaming_widgets_cancelled w st :
  (forall proc, Py.strip (finder_stdout w proc) = []) ->
  buffer (snd (fzf_insert_history w st)) = buffer st /\
  buffer (snd (fzf_insert_dir_history w st)) = buffer st.
Proof.
  intros Hnone. split.
  - unfold fzf_insert_history, bind. rewrite get_fzf_proc_eq.
    destruct (binary_path_of w (xsh_env st)); [|done].
    lazy beta iota zeta. unfold stdin_write, bind, log, modify, ret.
    run_state. rewrite close_fzf_proc_eq. lazy beta iota zeta.
    by rewrite Hnone.
  - unfold fzf_insert_dir_history. destruct (history w) as [items|]; [|done].
    unfold bind. rewrite get_fzf_proc_eq.
    destruct (binary_path_of w (xsh_env st)); [|done].
    lazy beta iota zeta.
    match goal with
    | |- context [dir_history_loop ?l ∅ ?p ?s] =>
        destruct (dir_history_loop_eq l ∅ p [] s eq_refl) as (proc' & -> & _)
    end.
    rewrite close_fzf_proc_eq. lazy beta iota zeta. by rewrite Hnone.
Qed.

(** ** Command mode: inserting files and directories *)

Lemma override_from_xsh_env_eq src dst st :
  override_from_xsh_env src dst st =
  (Ok tt,
   {| xsh_env := xsh_env st;
      os_environ := match xsh_env st !! src with
                    | Some v => <[dst := v]> (os_environ st)
                    | None => os_environ st
                    end;
      cwd := cwd st; buffer := buffer st; trace := trace st |}).
Proof.
  unfold override_from_xsh_env, environ_set, bind, gets, ret, modify.
  run_state. destruct (xsh_env st !! src); [done|]. by destruct st.
Qed.

(** Runs [fzf_insert_file] up to the resolution of the finder, one goal
    for each way the word before the cursor can complete. *)
Ltac enter_fzf_insert_file :=
  unfold fzf_insert_file, bind, gets; run_state;
  destruct (prefix_of _) as [pre|];
    [destruct (Py.truthy pre);
       [destruct (complete_path _ _ _ _ _) as [|path [|??]];
          [|destruct (isdir _ _)|]|]|];
  unfold getcwd, chdir, bind, gets, ret, log, modify; run_state;
  rewrite !override_from_xsh_env_eq; run_state;
  rewrite get_fzf_binary_path_eq; run_state.

Ltac finish_fzf_insert_file :=
  unfold subprocess_run, getcwd, chdir, erase, set_buffer, extend,
    bind, gets, ret, log, modify; run_state.



(** When the finder cannot be resolved the exception leaves
    [fzf_insert_file] before the buffer is touched. *)
Lemma fzf_insert_file_not_found w dirs_only st :
  (forall name, subproc_captured_stdout w [Py.lit "which"; name] = []) ->
  fst (fzf_insert_file w dirs_only st) = Raise fzf_not_found /\
  buffer (snd (fzf_insert_file w dirs_only st)) = buffer st.
Proof.
  intros H. destruct dirs_only; enter_fzf_insert_file;
    by rewrite (binary_path_of_missing _ _ H).
Qed.

(** On that path the directory entered at line 110 is not left again:
    the exception passes the [os.chdir(cwd)] of line 129 by. *)
Lemma fzf_insert_file_not_found_stays_in_dir :
  let w := Sample.without_finder (Sample.world "") in
  let st := Sample.state ∅ "cat fo" in
  fst (fzf_insert_file w false st) = Raise fzf_not_found /\
  cwd st = Py.lit "/home/me" /\
  cwd (snd (fzf_insert_file w false st)) = Py.lit "/home/me/foo/".
Proof. vm_compute. done. Qed.

(** The overrides land in [os.environ] itself and stay there. *)
Lemma fzf_insert_file_environ w dirs_only st :
  os_environ (snd (fzf_insert_file w dirs_only st))
  = overridden dirs_only (xsh_env st) (os_environ st).
Proof.
  destruct dirs_only; enter_fzf_insert_file;
    (destruct (binary_path_of _ _); run_state; [|done]);
    finish_fzf_insert_file;
    repeat (match goal with
            | |- context [Py.truthy ?x] => destruct (Py.truthy x)
            end; run_state);
    done.
Qed.

(** C1, at an input where the code departs from it: with
    [fzf_find_command] configured and a process environment without
    [FZF_DEFAULT_COMMAND], the file widget returns normally and the
    process environment now holds [FZF_DEFAULT_COMMAND]: line 112 names
    [os.environ] itself, not a copy. *)
Theorem fzf_insert_file_mutates_os_environ :
  let w := Sample.world "" in
  let st := Sample.state {[ Py.lit "fzf_find_command" := Py.lit "fd -t f" ]} "" in
  fst (fzf_insert_file w false st) = Ok tt /\
  os_environ st !! Py.lit "FZF_DEFAULT_COMMAND" = None /\
  os_environ (snd (fzf_insert_file w false st)) !! Py.lit "FZF_DEFAULT_COMMAND"
    = Some (Py.lit "fd -t f").
Proof. vm_compute. done. Qed.

(** The leak across invocations: after the directory widget has run with
    [fzf_find_dirs_command] configured, the file widget, for which no
    command is configured, starts its finder with the directory command. *)
Lemma dirs_command_leaks_into_file_widget :
  let w := Sample.world "" in
  let st :=
    Sample.state {[ Py.lit "fzf_find_dirs_command" := Py.lit "fd -t d" ]} "" in
  let st1 := snd (fzf_insert_file w true st) in
  xsh_env st1 !! Py.lit "fzf_find_command" = None /\
  (fun proc => child_env proc !! Py.lit "FZF_DEFAULT_COMMAND")
    <$> spawned (trace (snd (fzf_insert_file w false st1)))
  = [Some (Py.lit "fd -t d"); Some (Py.lit "fd -t d")].
Proof. vm_compute. done. Qed.

(** ** Key bindings and errors *)




(** ** The redraw after the finder exits *)

Lemma run_app p t1 t2 :
  run p (t1 ++ t2) = match run p t1 with Some q => run q t2 | None => None end.
Proof.
  revert p. induction t1 as [|e t1 IH]; intros p; [done|].
  cbn [run app]. destruct (step p e); [apply IH|done].
Qed.

Lemma step_quiet p e : quiet e -> step p e = Some p.
Proof. by destruct e, p. Qed.

Lemma run_Redrawn t q : run Redrawn t = Some q -> q = Redrawn /\ Forall settled t.
Proof.
  induction t as [|e t IH]; cbn [run]; [by intros [= <-]|].
  destruct e; cbn [step]; try discriminate;
    intros [-> H]%IH; (split; [done|]); by constructor.
Qed.

Lemma run_Exited t q :
  run Exited t = Some q ->
  (q = Exited /\ Forall quiet t) \/
  (q = Redrawn /\ exists mid post,
     t = mid ++ EvErase :: post /\ Forall quiet mid /\ Forall settled post).
Proof.
  induction t as [|e t IH]; cbn [run]; [intros [= <-]; by left|].
  destruct e; cbn [step]; try discriminate.
  1-5: intros [[-> H]|[-> (mid & post & -> & Hm & Hp)]]%IH;
    [left; split; [done|by constructor]
    |right; split; [done|];
     eexists (_ :: mid), post; split; [done|split; [by constructor|done]]].
  intros [-> H]%run_Redrawn. right. split; [done|].
  exists [], t. by repeat split.
Qed.

(** A trace the phases accept, and that does not stop between an exit
    and its redraw, has the shape [redrawn_once] describes. *)
Lemma run_Before t q :
  run Before t = Some q -> q ≠ Exited -> redrawn_once t.
Proof.
  induction t as [|e t IH]; cbn [run]; [intros _ _; by constructor|].
  destruct e; cbn [step]; try discriminate.
  1-5: intros Hrun Hq;
    destruct (IH Hrun Hq) as [t' H|pre s mid post Hpre Hmid Hpost];
    [apply no_child_exit; by constructor
    |apply (erase_after_exit (_ :: pre)); [by constructor|done|done]].
  intros [[-> H]|[-> (mid & post & -> & Hm & Hp)]]%run_Exited Hq; [done|].
  by apply (erase_after_exit []).
Qed.

(** *** Rules for the monad *)

Lemma advances_ret {A} p (a : A) : advances p (ret a) p.
Proof. intros st. exists [], p. cbn. by rewrite app_nil_r. Qed.

Lemma advances_gets {A} p (f : State -> A) : advances p (gets f) p.
Proof. intros st. exists [], p. cbn. by rewrite app_nil_r. Qed.

Lemma advances_raise {A} p e : p ≠ Exited -> advances p (@raise A e) p.
Proof. intros H st. exists [], p. cbn. by rewrite app_nil_r. Qed.

Lemma advances_log p e q : step p e = Some q -> advances p (log e) q.
Proof. intros H st. exists [e], q. cbn. by rewrite H. Qed.

Lemma advances_modify_silent p (f : State -> State) :
  (forall st, trace (f st) = trace st) -> advances p (modify f) p.
Proof. intros H st. exists [], p. cbn. by rewrite H, app_nil_r. Qed.

Lemma advances_bind {A B} p q1 q (m : M A) (f : A -> M B) :
  advances p m q1 -> (forall a, advances q1 (f a) q) -> advances p (bind m f) q.
Proof.
  intros Hm Hf st. unfold bind.
  destruct (Hm st) as (t1 & q1' & Ht1 & Hr1 & Hq1).
  destruct (m st) as [[a|e] st1]; cbn [fst snd] in *.
  - subst q1'. destruct (Hf a st1) as (t2 & q2 & Ht2 & Hr2 & Hq2).
    exists (t1 ++ t2), q2. by rewrite Ht2, Ht1, run_app, Hr1, app_assoc.
  - by exists t1, q1'.
Qed.

Create HintDb advances.

#[local] Hint Resolve advances_ret advances_gets : advances.
#[local] Hint Extern 1 (step _ _ = Some _) => reflexivity : advances.
#[local] Hint Extern 1 (_ ≠ Exited) => discriminate : advances.
#[local] Hint Extern 2 (advances _ (log _) _) => apply advances_log : advances.
#[local] Hint Extern 2 (advances _ (raise _) _) => apply advances_raise : advances.

(** [m ;; ...]: discharge [m] from the hints, go on with the rest. *)
Ltac seq :=
  eapply advances_bind; [solve [eauto with advances] | intros ?].

(** *** Rules for the primitives and the widgets *)

Lemma advances_environ_set p k v : advances p (environ_set k v) p.
Proof. by apply advances_modify_silent. Qed.

Lemma advances_chdir p dir : advances p (chdir dir) p.
Proof.
  eapply advances_bind; [by apply advances_modify_silent|].
  intros _. by apply advances_log, step_quiet.
Qed.

Lemma advances_set_buffer b : advances Redrawn (set_buffer b) Redrawn.
Proof.
  eapply advances_bind; [by apply advances_modify_silent|].
  intros _. by apply advances_log.
Qed.

Lemma advances_erase : advances Exited erase Redrawn.
Proof. by apply advances_log. Qed.

Lemma advances_run w p args : advances p (_run w args) p.
Proof. unfold _run. seq. eauto with advances. Qed.

#[local] Hint Resolve advances_environ_set advances_chdir advances_set_buffer
  advances_erase advances_run : advances.

Lemma advances_override p src dst : advances p (override_from_xsh_env src dst) p.
Proof.
  unfold override_from_xsh_env. seq.
  destruct (_ !! src); eauto with advances.
Qed.

Lemma advances_get_fzf_binary_path w p :
  p ≠ Exited -> advances p (get_fzf_binary_path w) p.
Proof.
  intros Hp. unfold get_fzf_binary_path.
  eapply advances_bind.
  { unfold get_fzf_binary_name, in_xsh_env.
    eapply advances_bind; [seq; eauto with advances|].
    intros []; [seq; destruct (Py.truthy _)|]; eauto with advances. }
  intros name. seq. destruct (negb _); eauto with advances.
Qed.

Lemma advances_Popen p args : advances p (Popen args) p.
Proof. unfold Popen, getcwd. do 3 seq. eauto with advances. Qed.

Lemma advances_stdin_write p proc data : advances p (stdin_write proc data) p.
Proof. unfold stdin_write. seq. eauto with advances. Qed.

Lemma advances_subprocess_run w args input env :
  advances Before (subprocess_run w args input env) Exited.
Proof. unfold subprocess_run, getcwd. do 3 seq. eauto with advances. Qed.

#[local] Hint Resolve advances_override advances_get_fzf_binary_path
  advances_Popen advances_stdin_write advances_subprocess_run : advances.

Lemma advances_get_fzf_proc w : advances Before (get_fzf_proc w) Before.
Proof. unfold get_fzf_proc. do 2 seq. eauto with advances. Qed.

Lemma advances_close_fzf_proc w proc :
  advances Before (close_fzf_proc w proc) Redrawn.
Proof.
  unfold close_fzf_proc. do 3 seq.
  destruct (Py.truthy _); [do 3 seq|]; eauto with advances.
Qed.

Lemma advances_dir_history_loop p items read proc :
  advances p (dir_history_loop items read proc) p.
Proof.
  revert read proc. induction items as [|entry items IH]; intros read proc.
  - apply advances_ret.
  - cbn [dir_history_loop].
    destruct (entry !! Py.lit "cwd") as [d|]; [|apply IH].
    destruct (_ && _); [seq|]; apply IH.
Qed.

#[local] Hint Resolve advances_get_fzf_proc advances_close_fzf_proc
  advances_dir_history_loop : advances.

Lemma advances_fzf_insert_file w dirs_only :
  advances Before (fzf_insert_file w dirs_only) Redrawn.
Proof.
  unfold fzf_insert_file. seq.
  eapply advances_bind.
  { destruct (prefix_of _) as [pre|]; [|apply advances_ret].
    destruct (Py.truthy pre); [|apply advances_ret].
    destruct (complete_path _ _ _ _ _) as [|path [|??]]; try apply advances_ret.
    destruct (isdir _ _); [|apply advances_ret].
    unfold getcwd. do 2 seq. apply advances_ret. }
  intros [cwd path]. cbn [fst snd].
  eapply advances_bind; [destruct dirs_only; apply advances_override|].
  intros _. do 4 seq.
  eapply advances_bind.
  { destruct cwd as [d|]; [destruct (Py.truthy d)|]; eauto with advances. }
  intros _. seq.
  destruct (Py.truthy _); [|apply advances_ret].
  eapply advances_bind.
  { destruct (Py.truthy path); [seq|]; eauto with advances. }
  intros _. seq. eauto with advances.
Qed.

Lemma advances_fzf_prompt_from_string w string :
  advances Before (fzf_prompt_from_string w string) Exited.
Proof. unfold fzf_prompt_from_string. do 3 seq. eauto with advances. Qed.

#[local] Hint Resolve advances_fzf_insert_file advances_fzf_prompt_from_string
  : advances.

Lemma advances_outcome {A} p (m : M A) q st :
  advances p m q -> q ≠ Exited ->
  exists t q',
    trace (snd (m st)) = trace st ++ t /\ run p t = Some q' /\ q' ≠ Exited.
Proof.
  intros H Hq. destruct (H st) as (t & q' & Ht & Hr & Hres).
  exists t, q'. repeat split; [done..|].
  destruct (fst (m st)); by subst.
Qed.


(** ** Further properties: resolving the finder *)

(** X1: [get_fzf_binary_name] never raises and answers one of the two names;
    outside a tmux session it answers [fzf] without running anything. *)
Theorem get_fzf_binary_name_total w st :
  (fst (get_fzf_binary_name w st) = Ok (Py.lit "fzf-tmux") \/
   fst (get_fzf_binary_name w st) = Ok (Py.lit "fzf")) /\
  (xsh_env st !! Py.lit "TMUX" = None ->
   get_fzf_binary_name w st = (Ok (Py.lit "fzf"), st)).
Proof.
  split.
  - rewrite get_fzf_binary_name_eq. unfold binary_name_of.
    destruct (xsh_env st !! Py.lit "TMUX"); [destruct (Py.truthy _)|]; auto.
  - intros H. unfold get_fzf_binary_name, in_xsh_env, bind, gets, ret.
    run_state. by rewrite H.
Qed.

Lemma get_fzf_binary_name_total_witness :
  let w := Sample.world "" in
  let st := Sample.state ∅ "" in
  xsh_env st !! Py.lit "TMUX" = None /\
  get_fzf_binary_name w st = (Ok (Py.lit "fzf"), st).
Proof.
  intros w st. split; [reflexivity|].
  exact (proj2 (get_fzf_binary_name_total w st) eq_refl).
Defined.

(** X2: [get_fzf_binary_path] either returns what [which] printed for the
    chosen name, which is then not empty, or raises the not-found
    exception, and it does so exactly when [which] printed nothing.  It
    only adds helper runs to the trace. *)
Theorem get_fzf_binary_path_cases w st :
  exists name runs,
    fst (get_fzf_binary_name w st) = Ok name /\
    snd (get_fzf_binary_path w st) = extend st runs /\
    Forall (fun e => exists args, e = EvRun args) runs /\
    match fst (get_fzf_binary_path w st) with
    | Ok path =>
        path ≠ [] /\
        path = subproc_captured_stdout w [Py.lit "which"; name]
    | Raise e =>
        e = fzf_not_found /\
        subproc_captured_stdout w [Py.lit "which"; name] = []
    end.
Proof.
  exists (binary_name_of w (xsh_env st)), (resolution_runs w (xsh_env st)).
  rewrite get_fzf_binary_name_eq, get_fzf_binary_path_eq. run_state.
  split; [done|]. split; [done|]. split.
  - unfold resolution_runs.
    destruct (xsh_env st !! Py.lit "TMUX"); repeat constructor; by eexists.
  - unfold binary_path_of.
    destruct (subproc_captured_stdout w _) as [|c s]; by cbn.
Qed.

(** ** Further properties: the word before the cursor *)

Lemma rfind_scan_absent c s i last :
  c ∉ s -> Py.rfind_scan c s i last = last.
Proof.
  revert i last. induction s as [|x s IH]; intros i last Hc; [done|].
  cbn [Py.rfind_scan]. apply not_elem_of_cons in Hc as [Hx Hs].
  rewrite IH by done. destruct (N.eqb_spec x c); [by subst|done].
Qed.

Lemma rfind_scan_last c s1 s2 i last :
  c ∉ s2 ->
  Py.rfind_scan c (s1 ++ c :: s2) i last = i + Py.len s1.
Proof.
  revert i last. induction s1 as [|x s1 IH]; intros i last Hc.
  - cbn [app Py.rfind_scan]. rewrite N.eqb_refl, rfind_scan_absent by done.
    unfold Py.len. cbn. lia.
  - cbn [app Py.rfind_scan]. rewrite IH by done.
    unfold Py.len. cbn [length]. lia.
Qed.

Lemma rfind_scan_split c s i last :
  ((c ∉ s) /\ Py.rfind_scan c s i last = last) \/
  (exists s1 s2, s = s1 ++ c :: s2 /\ (c ∉ s2) /\
     Py.rfind_scan c s i last = i + Py.len s1).
Proof.
  destruct (decide (c ∈ s)) as [Hin|Hout].
  - right. induction s as [|x s IH]; [by apply elem_of_nil in Hin|].
    destruct (decide (c ∈ s)) as [Hs|Hs].
    + destruct (IH Hs) as (s1 & s2 & -> & Hc & _).
      exists (x :: s1), s2. split; [done|]. split; [done|].
      by apply (rfind_scan_last c (x :: s1)).
    + apply elem_of_cons in Hin as [->|]; [|done].
      exists [], s. split; [done|]. split; [done|].
      by apply (rfind_scan_last x []).
  - left. split; [done|]. by apply rfind_scan_absent.
Qed.

Lemma slice_from_app s1 s2 :
  Py.slice_from (s1 ++ s2) (Py.len s1) = s2.
Proof.
  unfold Py.slice_from, Py.slice, Py.clamp, Py.len.
  rewrite length_app.
  destruct (Z.ltb_spec (Z.of_nat (length s1)) 0); [lia|].
  destruct (Z.ltb_spec (Z.of_nat (length s1 + length s2)) 0); [lia|].
  rewrite Z.min_id, Z.min_l by lia. rewrite Nat2Z.id, drop_app_length.
  apply take_ge. lia.
Qed.

(** X3: lines 94 to 97 find a word to complete exactly when the text before
    the cursor is some text, a space, and a non-empty word without
    spaces; the word is then what follows that last space.  A line
    without any space, or ending in a space, has no such word. *)
Theorem prefix_of_spec before_cursor pre :
  prefix_of before_cursor = Some pre <->
  pre ≠ [] /\ (32%N ∉ pre) /\ exists head, before_cursor = head ++ 32%N :: pre.
Proof.
  unfold prefix_of, Py.rfind. rewrite slice_whole.
  assert (Py.clamp (Py.len before_cursor) 0 = 0) as ->.
  { unfold Py.clamp, Py.len. cbn. lia. }
  split.
  - destruct (rfind_scan_split 32 before_cursor 0 (-1))
      as [[_ ->]|(s1 & s2 & -> & Hc & ->)]; [done|].
    assert ((0 + Py.len s1 =? -1) = false) as ->
      by (apply Z.eqb_neq; unfold Py.len; lia).
    destruct (Z.eqb_spec (0 + Py.len s1) (Py.len (s1 ++ 32%N :: s2) - 1));
      [done|].
    cbn [negb andb]. intros [= <-].
    replace (s1 ++ 32%N :: s2) with ((s1 ++ [32%N]) ++ s2) in *
      by (by rewrite <- app_assoc).
    replace (0 + Py.len s1 + 1) with (Py.len (s1 ++ [32%N]))
      by (unfold Py.len; rewrite length_app; cbn; lia).
    rewrite slice_from_app. split; [|split; [done|exists s1; by rewrite <- app_assoc]].
    intros ->. apply n. unfold Py.len. rewrite !length_app. cbn. lia.
  - intros (Hne & Hc & head & ->).
    rewrite rfind_scan_last by done.
    assert ((0 + Py.len head =? -1) = false) as ->
      by (apply Z.eqb_neq; unfold Py.len; lia).
    assert ((0 + Py.len head =? Py.len (head ++ 32%N :: pre) - 1) = false) as ->.
    { apply Z.eqb_neq. unfold Py.len. rewrite length_app.
      destruct pre; [done|]. cbn [length]. lia. }
    cbn [negb andb]. f_equal.
    replace (head ++ 32%N :: pre) with ((head ++ [32%N]) ++ pre)
      by (by rewrite <- app_assoc).
    replace (0 + Py.len head + 1) with (Py.len (head ++ [32%N]))
      by (unfold Py.len; rewrite length_app; cbn; lia).
    apply slice_from_app.
Qed.

(** ** Further properties: what reaches the buffer *)

Lemma lstrip_app_nonspace a c b :
  Py.isspace c = false -> Py.lstrip (a ++ c :: b) = Py.lstrip a ++ c :: b.
Proof.
  intros Hc. induction a as [|x a IH]; cbn [app Py.lstrip].
  - by rewrite Hc.
  - destruct (Py.isspace x); [exact IH|done].
Qed.

Lemma lstrip_head s c r : Py.lstrip s = c :: r -> Py.isspace c = false.
Proof.
  induction s as [|x s IH]; cbn [Py.lstrip]; [done|].
  destruct (Py.isspace x) eqn:Hx; [exact IH|]. by intros [= <- _].
Qed.

(** A stripped text, when not empty, neither starts nor ends with
    whitespace. *)
Lemma strip_ends s c :
  head (Py.strip s) = Some c \/ last (Py.strip s) = Some c ->
  Py.isspace c = false.
Proof.
  unfold Py.strip, Py.rstrip.
  destruct (Py.lstrip s) as [|x r] eqn:Hl; [by intros [|]|].
  pose proof (lstrip_head _ _ _ Hl) as Hx.
  cbn [rev]. rewrite (lstrip_app_nonspace _ x []) by done.
  rewrite rev_app_distr. cbn [rev app].
  intros [[= <-]|H]; [done|].
  destruct (Py.lstrip (rev r)) as [|y r'] eqn:Hr.
  - cbn in H. by injection H as <-.
  - cbn [rev] in H. change (x :: (rev r' ++ [y])) with ((x :: rev r') ++ [y]) in H.
    rewrite last_snoc in H. injection H as <-. by apply (lstrip_head _ _ _ Hr).
Qed.

(** X4: after a selection in streaming mode the buffer holds a text that
    neither starts nor ends with whitespace, and the cursor is at the
    end of the buffer's text. *)
Theorem close_fzf_proc_trimmed w proc st :
  Py.strip (finder_stdout w proc) ≠ [] ->
  let b := buffer (snd (close_fzf_proc w proc st)) in
  cursor_position b = Py.len (text b) /\
  forall c, head (text b) = Some c \/ last (text b) = Some c ->
            Py.isspace c = false.
Proof.
  intros H b. subst b. rewrite close_fzf_proc_eq. cbn zeta.
  destruct (Py.strip (finder_stdout w proc)) as [|x r] eqn:E; [done|].
  cbn [Py.truthy snd buffer Ptk.set_cursor_position Ptk.set_text text
       cursor_position].
  split; [done|]. intros c Hc. apply (strip_ends (finder_stdout w proc)).
  by rewrite E.
Qed.

Lemma close_fzf_proc_trimmed_witness :
  let w := Sample.world "  ls -l  " in
  let st := Sample.state ∅ "" in
  let proc := piped (popen_args (Py.lit "/usr/bin/fzf") []) st in
  Py.strip (finder_stdout w proc) ≠ [] /\
  cursor_position (buffer (snd (close_fzf_proc w proc st))) = 5 /\
  head (text (buffer (snd (close_fzf_proc w proc st)))) = Some 108%N.
Proof.
  intros w st proc.
  assert (Py.strip (finder_stdout w proc) ≠ []) as H by discriminate.
  split; [exact H|].
  split; [exact (proj1 (close_fzf_proc_trimmed w proc st H))|reflexivity].
Defined.

Lemma rstrip_snoc_space s c :
  Py.isspace c = true -> Py.rstrip (s ++ [c]) = Py.rstrip s.
Proof.
  intros Hc. unfold Py.rstrip. rewrite rev_app_distr. cbn [rev app Py.lstrip].
  by rewrite Hc.
Qed.

Lemma rstrip_snoc_nonspace s c :
  Py.isspace c = false -> Py.rstrip (s ++ [c]) = s ++ [c].
Proof.
  intros Hc. unfold Py.rstrip. rewrite rev_app_distr. cbn [rev app Py.lstrip].
  rewrite Hc. cbn [rev]. by rewrite rev_involutive.
Qed.

Lemma strip_quoted_space m :
  Py.strip ((39%N :: m ++ [39%N]) ++ [32%N]) = 39%N :: m ++ [39%N].
Proof.
  unfold Py.strip. change (Py.lstrip ((39%N :: m ++ [39%N]) ++ [32%N]))
    with ((39%N :: m ++ [39%N]) ++ [32%N]).
  rewrite rstrip_snoc_space by done.
  change (39%N :: m ++ [39%N]) with ((39%N :: m) ++ [39%N]).
  by rewrite rstrip_snoc_nonspace.
Qed.

Lemma quote_choices_acc path lines command :
  quote_choices path lines command
  = command ++ mjoin ((fun c => quoted path c ++ [32%N]) <$> lines).
Proof.
  revert command. induction lines as [|c lines IH]; intros command.
  - cbn. by rewrite app_nil_r.
  - cbn [quote_choices fmap list_fmap mjoin list_join]. rewrite IH.
    unfold quoted. by rewrite <- !app_assoc.
Qed.

Lemma quoted_shape path c :
  quoted path c = 39%N :: Py.path_join path (Py.strip c) ++ [39%N].
Proof. reflexivity. Qed.

Lemma join_quoted_shape path c lines :
  exists m,
    Py.join [32%N] (quoted path <$> c :: lines) = 39%N :: m ++ [39%N] /\
    mjoin ((fun c => quoted path c ++ [32%N]) <$> c :: lines)
    = (39%N :: m ++ [39%N]) ++ [32%N].
Proof.
  revert c. induction lines as [|c' lines IH]; intros c.
  - exists (Py.path_join path (Py.strip c)).
    cbn [fmap list_fmap mjoin list_join Py.join].
    by rewrite app_nil_r, quoted_shape.
  - destruct (IH c') as (m & Hj & Hm).
    exists (Py.path_join path (Py.strip c) ++ [39%N; 32%N; 39%N] ++ m).
    change (Py.join [32%N] (quoted path <$> c :: c' :: lines))
      with (quoted path c ++ [32%N] ++ Py.join [32%N] (quoted path <$> c' :: lines)).
    change (mjoin ((fun c => quoted path c ++ [32%N]) <$> c :: c' :: lines))
      with ((quoted path c ++ [32%N])
            ++ mjoin ((fun c => quoted path c ++ [32%N]) <$> c' :: lines)).
    rewrite Hj, Hm, quoted_shape. cbn [app]. split; f_equal;
      rewrite <- ?app_assoc; cbn [app]; reflexivity.
Qed.

Lemma strip_quote_choices path lines :
  Py.strip (quote_choices path lines []) = Py.join [32%N] (quoted path <$> lines).
Proof.
  rewrite quote_choices_acc. cbn [app].
  destruct lines as [|c lines]; [done|].
  destruct (join_quoted_shape path c lines) as (m & -> & ->).
  apply strip_quoted_space.
Qed.

(** X5: what the file widget inserts for the chosen lines: each line,
    stripped, joined onto the completed path and wrapped in single
    quotes, with single spaces in between and none at either end. *)
Theorem quote_choices_joined path lines :
  Py.strip (quote_choices path lines []) = Py.join [32%N] (quoted path <$> lines).
Proof. apply strip_quote_choices. Qed.

(** ** Further properties: the file widget *)

Lemma spawned_app t1 t2 : spawned (t1 ++ t2) = spawned t1 ++ spawned t2.
Proof. apply omap_app. Qed.

Lemma spawned_resolution_runs w xenv : spawned (resolution_runs w xenv) = [].
Proof. unfold resolution_runs. by destruct (xenv !! Py.lit "TMUX"). Qed.




(** X8: a cancelled selection in command mode leaves the buffer as it was,
    whatever the word before the cursor completes to. *)
Theorem fzf_insert_file_cancelled w dirs_only st :
  (forall proc, Py.strip (finder_stdout w proc) = []) ->
  buffer (snd (fzf_insert_file w dirs_only st)) = buffer st.
Proof.
  intros Hnone.
  destruct dirs_only; enter_fzf_insert_file;
    (destruct (binary_path_of _ _); run_state; [|done]);
    finish_fzf_insert_file; rewrite Hnone; cbn [Py.truthy];
    repeat (match goal with
            | |- context [Py.truthy ?x] => destruct (Py.truthy x)
            end; run_state);
    done.
Qed.

Lemma fzf_insert_file_cancelled_witness :
  let w := Sample.world "  " in
  let st := Sample.state ∅ "cat fo" in
  (forall proc, Py.strip (finder_stdout w proc) = []) /\
  buffer (snd (fzf_insert_file w false st)) = buffer st.
Proof.
  intros w st.
  assert (forall proc, Py.strip (finder_stdout w proc) = []) as H
    by reflexivity.
  split; [exact H|]. exact (fzf_insert_file_cancelled w false st H).
Defined.



Lemma slice_to_app s1 s2 : Py.slice_to (s1 ++ s2) (Py.len s1) = s1.
Proof.
  unfold Py.slice_to, Py.slice, Py.clamp, Py.len. rewrite length_app.
  replace (0 <? 0) with false by done.
  destruct (Z.ltb_spec (Z.of_nat (length s1)) 0); [lia|].
  rewrite !Z.min_l by lia. change (Z.to_nat 0) with 0%nat. rewrite drop_0.
  rewrite Z.sub_0_r, Nat2Z.id. by rewrite take_app_length.
Qed.

Lemma slice_middle s1 s2 s3 :
  Py.slice (s1 ++ s2 ++ s3) (Py.len s1) (Py.len (s1 ++ s2)) = s2.
Proof.
  unfold Py.slice, Py.clamp, Py.len. rewrite !length_app.
  destruct (Z.ltb_spec (Z.of_nat (length s1)) 0); [lia|].
  destruct (Z.ltb_spec (Z.of_nat (length s1 + length s2)) 0); [lia|].
  rewrite !Z.min_l by lia. rewrite Nat2Z.id, drop_app_length.
  replace (Z.to_nat (Z.of_nat (length s1 + length s2) - Z.of_nat (length s1)))
    with (length s2) by lia.
  by rewrite take_app_length.
Qed.

(** Deleting as many characters as the word before the cursor has takes
    exactly that word out. *)
Lemma delete_word before pre rest :
  pre ≠ [] ->
  Ptk.delete_before_cursor (Py.len pre)
    {| text := before ++ pre ++ rest;
       cursor_position := Py.len (before ++ pre) |}
  = {| text := before ++ rest; cursor_position := Py.len before |}.
Proof.
  intros Hpre. unfold Ptk.delete_before_cursor. cbn [text cursor_position].
  assert ((0 <? Py.len (before ++ pre)) = true) as ->.
  { apply Z.ltb_lt. unfold Py.len. rewrite length_app.
    destruct pre; [done|]. cbn [length]. lia. }
  replace (Py.len (before ++ pre) - Py.len pre) with (Py.len before)
    by (unfold Py.len; rewrite length_app; lia).
  rewrite slice_middle. f_equal.
  - rewrite slice_to_app. f_equal.
    rewrite app_assoc. apply slice_from_app.
  - unfold Py.len. rewrite length_app. lia.
Qed.

Lemma insert_at before data rest :
  Ptk.insert_text data
    {| text := before ++ rest; cursor_position := Py.len before |}
  = {| text := before ++ data ++ rest;
       cursor_position := Py.len (before ++ data) |}.
Proof.
  unfold Ptk.insert_text. cbn [text cursor_position].
  rewrite slice_to_app, slice_from_app. f_equal.
  unfold Py.len. rewrite length_app. lia.
Qed.



Lemma quoted_bare c : quoted [] c = 39%N :: Py.strip c ++ [39%N].
Proof.
  unfold quoted, Py.path_join.
  destruct (Py.startswith (Py.strip c) 47); reflexivity.
Qed.



(** ** Further properties: what the handlers leave alone *)

Lemma preserves_ret {A B} (f : State -> B) (a : A) : preserves f (ret a).
Proof. by intros st. Qed.

Lemma preserves_gets {A B} (f : State -> B) (g : State -> A) :
  preserves f (gets g).
Proof. by intros st. Qed.

Lemma preserves_raise {A B} (f : State -> B) e : preserves f (@raise A e).
Proof. by intros st. Qed.

Lemma preserves_modify {B} (f : State -> B) (g : State -> State) :
  (forall st, f (g st) = f st) -> preserves f (modify g).
Proof. intros H st. apply H. Qed.

Lemma preserves_bind {A B C} (f : State -> C) (m : M A) (k : A -> M B) :
  preserves f m -> (forall a, preserves f (k a)) -> preserves f (bind m k).
Proof.
  intros Hm Hk st. unfold bind. specialize (Hm st).
  destruct (m st) as [[a|e] st1]; cbn [fst snd] in *; [|done].
  by rewrite Hk.
Qed.

Create HintDb frames.

#[local] Hint Resolve preserves_ret preserves_gets preserves_raise : frames.
#[local] Hint Extern 2 (preserves _ (modify _)) =>
  apply preserves_modify; reflexivity : frames.
#[local] Hint Extern 2 (preserves _ (log _)) =>
  apply preserves_modify; reflexivity : frames.

(** Splits a sequence; what the hints settle is settled. *)
Ltac frame :=
  repeat first
    [ solve [eauto with frames]
    | apply preserves_bind; [|intros ?]
    | match goal with
      | |- preserves _ (if ?c then _ else _) => destruct c
      | |- preserves _ (match ?x with _ => _ end) => destruct x
      end ].

Section Frames.

(** A component of the state that depends neither on the buffer nor on
    the trace. *)
Context {B : Type} (f : State -> B).
Hypothesis Hf : forall st b t,
  f {| xsh_env := xsh_env st; os_environ := os_environ st; cwd := cwd st;
       buffer := b; trace := t |} = f st.

Lemma preserves_log e : preserves f (log e).
Proof. intros st. apply Hf. Qed.

Lemma preserves_set_buffer b : preserves f (set_buffer b).
Proof. intros st. cbn. apply Hf. Qed.

#[local] Hint Resolve preserves_log preserves_set_buffer : frames.

Lemma preserves_run w args : preserves f (_run w args).
Proof. unfold _run. frame. Qed.

#[local] Hint Resolve preserves_run : frames.

Lemma preserves_get_fzf_binary_path w : preserves f (get_fzf_binary_path w).
Proof.
  unfold get_fzf_binary_path, get_fzf_binary_name, in_xsh_env. frame.
Qed.

#[local] Hint Resolve preserves_get_fzf_binary_path : frames.

Lemma preserves_get_fzf_proc w : preserves f (get_fzf_proc w).
Proof. unfold get_fzf_proc, Popen, getcwd. frame. Qed.

Lemma preserves_stdin_write proc data : preserves f (stdin_write proc data).
Proof. unfold stdin_write. frame. Qed.

Lemma preserves_close_fzf_proc w proc : preserves f (close_fzf_proc w proc).
Proof. unfold close_fzf_proc, erase. frame. Qed.

#[local] Hint Resolve preserves_get_fzf_proc preserves_stdin_write
  preserves_close_fzf_proc : frames.

Lemma preserves_dir_history_loop items read proc :
  preserves f (dir_history_loop items read proc).
Proof.
  revert read proc. induction items as [|entry items IH]; intros read proc;
    cbn [dir_history_loop]; [frame|].
  destruct (entry !! Py.lit "cwd") as [d|]; [|apply IH].
  destruct (_ && _); [|apply IH].
  apply preserves_bind; [frame|]. intros proc'. apply IH.
Qed.

#[local] Hint Resolve preserves_dir_history_loop : frames.

Lemma preserves_subprocess_run w args input env :
  preserves f (subprocess_run w args input env).
Proof. unfold subprocess_run, getcwd. frame. Qed.

#[local] Hint Resolve preserves_subprocess_run : frames.

(** The history, ssh and directory-history handlers. *)
Lemma preserves_streaming w h :
  h ≠ fzf_file -> h ≠ fzf_dir -> preserves f (call w h).
Proof.
  intros Hfile Hdir. destruct h; [| | done | done |]; cbn [call];
    unfold fzf_insert_history, fzf_insert_dir_history,
      fzf_prompt_from_string, erase; frame.
Qed.

(** The file widget, for a component that [os.environ] and the working
    directory do not enter either. *)
Lemma preserves_fzf_insert_file w dirs_only :
  (forall st env dir b t,
     f {| xsh_env := xsh_env st; os_environ := env; cwd := dir;
          buffer := b; trace := t |} = f st) ->
  preserves f (fzf_insert_file w dirs_only).
Proof.
  intros Hall.
  assert (forall k v, preserves f (environ_set k v)) as Henv
    by (intros k v st; apply Hall).
  assert (forall dir, preserves f (chdir dir)) as Hchdir.
  { intros dir. unfold chdir. apply preserves_bind; [|intros ?; frame].
    intros st. apply Hall. }
  unfold fzf_insert_file, override_from_xsh_env, getcwd, erase.
  frame; try apply Henv; try apply Hchdir; frame.
Qed.

End Frames.

(** X12: no handler ever changes [XSH.env], however it ends. *)
Theorem handlers_keep_xsh_env w h st :
  xsh_env (snd (call w h st)) = xsh_env st.
Proof.
  destruct h;
    first [ by apply (preserves_fzf_insert_file xsh_env)
          | by apply (preserves_streaming xsh_env) ].
Qed.

(** X13: the history, ssh and directory-history handlers change neither the
    process environment nor the working directory, however they end. *)
Theorem streaming_handlers_keep_process_state w h st :
  h ≠ fzf_file -> h ≠ fzf_dir ->
  os_environ (snd (call w h st)) = os_environ st /\
  cwd (snd (call w h st)) = cwd st.
Proof.
  intros Hfile Hdir.
  split; [by apply (preserves_streaming os_environ)
         |by apply (preserves_streaming cwd)].
Qed.

Lemma streaming_handlers_keep_process_state_witness :
  let w := Sample.world "/b" in
  let st := Sample.state ∅ "" in
  fzf_dir_history ≠ fzf_file /\ fzf_dir_history ≠ fzf_dir /\
  os_environ (snd (call w fzf_dir_history st)) = ∅ /\
  cwd (snd (call w fzf_dir_history st)) = Py.lit "/home/me".
Proof.
  intros w st.
  assert (fzf_dir_history ≠ fzf_file) as H1 by discriminate.
  assert (fzf_dir_history ≠ fzf_dir) as H2 by discriminate.
  split; [exact H1|]. split; [exact H2|].
  exact (streaming_handlers_keep_process_state w fzf_dir_history st H1 H2).
Defined.

(** ** Further properties: registering the key bindings *)

Lemma elem_of_handler env name h' bindings key h :
  (key, h) ∈ handler env name h' bindings <->
  (key, h) ∈ bindings \/ (h = h' /\ env !! name = Some key /\ key ≠ []).
Proof.
  unfold handler. destruct (env !! name) as [k|].
  - destruct k as [|c k]; cbn [Py.truthy].
    + split; [by left|]. intros [?|(_ & [= <-] & ?)]; done.
    + rewrite elem_of_app, list_elem_of_singleton. split.
      * intros [?|[= -> ->]]; [by left|by right].
      * intros [?|(-> & [= <-] & _)]; [by left|by right].
  - split; [by left|]. by intros [?|(_ & ? & _)].
Qed.

Lemma handler_app env name h bindings :
  handler env name h bindings = bindings ++ handler env name h [].
Proof.
  unfold handler. destruct (env !! name) as [k|]; [|by rewrite app_nil_r].
  destruct (Py.truthy k); [done|by rewrite app_nil_r].
Qed.


(** X15: bindings that exist already are kept, in their order, in front of
    the new ones; at most five are added. *)
Theorem custom_keybindings_extends env bindings :
  custom_keybindings env bindings = bindings ++ custom_keybindings env [] /\
  (length (custom_keybindings env []) <= 5)%nat.
Proof.
  unfold custom_keybindings. split.
  - rewrite (handler_app _ _ fzf_dir_history (handler _ _ _ _)),
      (handler_app _ _ fzf_dir (handler _ _ _ _)),
      (handler_app _ _ fzf_file (handler _ _ _ _)),
      (handler_app _ _ fzf_ssh (handler _ _ _ _)),
      (handler_app _ _ fzf_history bindings).
    symmetry.
    rewrite (handler_app _ _ fzf_dir_history (handler _ _ _ _)),
      (handler_app _ _ fzf_dir (handler _ _ _ _)),
      (handler_app _ _ fzf_file (handler _ _ _ _)),
      (handler_app _ _ fzf_ssh (handler _ _ _ _)).
    by rewrite <- !app_assoc.
  - rewrite (handler_app _ _ fzf_dir_history (handler _ _ _ _)),
      (handler_app _ _ fzf_dir (handler _ _ _ _)),
      (handler_app _ _ fzf_file (handler _ _ _ _)),
      (handler_app _ _ fzf_ssh (handler _ _ _ _)).
    rewrite !length_app.
    assert (forall name h, (length (handler env name h []) <= 1)%nat) as Hone.
    { intros name h. unfold handler.
      destruct (env !! name) as [k|]; [destruct (Py.truthy k)|]; cbn; lia. }
    pose proof (Hone (Py.lit "fzf_history_binding") fzf_history).
    pose proof (Hone (Py.lit "fzf_ssh_binding") fzf_ssh).
    pose proof (Hone (Py.lit "fzf_file_binding") fzf_file).
    pose proof (Hone (Py.lit "fzf_dir_binding") fzf_dir).
    pose proof (Hone (Py.lit "fzf_dir_history_binding") fzf_dir_history).
    lia.
Qed.

(** ** Further properties: the life of the finder process *)

Lemma life_run_app l t1 t2 :
  life_run l (t1 ++ t2)
  = match life_run l t1 with Some q => life_run q t2 | None => None end.
Proof.
  revert l. induction t1 as [|e t1 IH]; intros l; [done|].
  cbn [life_run app]. destruct (life_step l e); [apply IH|done].
Qed.

Lemma life_run_Reaped t q :
  life_run Reaped t = Some q -> q = Reaped /\ Forall childless t.
Proof.
  induction t as [|e t IH]; cbn [life_run]; [by intros [= <-]|].
  destruct e; cbn [life_step]; try discriminate;
    intros [-> H]%IH; (split; [done|]); by constructor.
Qed.

Lemma life_run_Closed t q :
  life_run Closed t = Some q ->
  (q = Closed /\ Forall within_child t) \/
  (q = Reaped /\ exists mid status post,
     t = mid ++ EvExit status :: post /\
     Forall within_child mid /\ Forall childless post).
Proof.
  induction t as [|e t IH]; cbn [life_run]; [intros [= <-]; by left|].
  destruct e; cbn [life_step]; try discriminate.
  1-2, 4-5: intros [[-> H]|[-> (mid & s & post & -> & Hm & Hp)]]%IH;
    [left; split; [done|by constructor]
    |right; split; [done|];
     eexists (_ :: mid), s, post;
     split; [done|split; [by constructor|done]]].
  intros [-> H]%life_run_Reaped. right. split; [done|].
  exists [], status, t. by repeat split.
Qed.

Lemma life_run_Running t q :
  life_run Running t = Some q ->
  ((q = Running \/ q = Closed) /\ Forall within_child t) \/
  (q = Reaped /\ exists mid status post,
     t = mid ++ EvExit status :: post /\
     Forall within_child mid /\ Forall childless post).
Proof.
  induction t as [|e t IH]; cbn [life_run]; [intros [= <-]; left; auto|].
  destruct e; cbn [life_step]; try discriminate.
  1-2, 6-7, 3: intros [[Hq H]|[-> (mid & s & post & -> & Hm & Hp)]]%IH;
    [left; split; [done|by constructor]
    |right; split; [done|];
     eexists (_ :: mid), s, post;
     split; [done|split; [by constructor|done]]].
  - intros [[-> H]|[-> (mid & s & post & -> & Hm & Hp)]]%life_run_Closed.
    + left. split; [by right|by constructor].
    + right. split; [done|]. eexists (_ :: mid), s, post.
      split; [done|split; [by constructor|done]].
  - intros [-> H]%life_run_Reaped. right. split; [done|].
    exists [], status, t. by repeat split.
Qed.

Lemma life_run_Idle t q :
  life_run Idle t = Some q -> q = Idle \/ q = Reaped -> one_child_waited t.
Proof.
  induction t as [|e t IH]; cbn [life_run]; [intros _ _; by constructor|].
  destruct e; cbn [life_step]; try discriminate.
  1-2, 4-5: intros Hrun Hq;
    destruct (IH Hrun Hq) as [t' H|pre p mid s post Hpre Hmid Hpost];
    [apply no_child; by constructor
    |apply (child_waited (_ :: pre)); [by constructor|done|done]].
  intros [[[->| ->] _]|[-> (mid & s & post & -> & Hm & Hp)]]%life_run_Running
    [|]; try done.
  by apply (child_waited []).
Qed.

Lemma lives_ret {A} l (a : A) : lives l (ret a) l.
Proof. intros st. exists [], l. cbn. by rewrite app_nil_r. Qed.

Lemma lives_gets {A} l (f : State -> A) : lives l (gets f) l.
Proof. intros st. exists [], l. cbn. by rewrite app_nil_r. Qed.

Lemma lives_raise {A} l e :
  l = Idle \/ l = Reaped -> lives l (@raise A e) l.
Proof. intros H st. exists [], l. cbn. by rewrite app_nil_r. Qed.

Lemma lives_log l e l' : life_step l e = Some l' -> lives l (log e) l'.
Proof. intros H st. exists [e], l'. cbn. by rewrite H. Qed.

Lemma lives_modify_silent l (f : State -> State) :
  (forall st, trace (f st) = trace st) -> lives l (modify f) l.
Proof. intros H st. exists [], l. cbn. by rewrite H, app_nil_r. Qed.

Lemma lives_bind {A B} l l1 l' (m : M A) (f : A -> M B) :
  lives l m l1 -> (forall a, lives l1 (f a) l') -> lives l (bind m f) l'.
Proof.
  intros Hm Hf st. unfold bind.
  destruct (Hm st) as (t1 & q1 & Ht1 & Hr1 & Hq1).
  destruct (m st) as [[a|e] st1]; cbn [fst snd] in *.
  - subst q1. destruct (Hf a st1) as (t2 & q2 & Ht2 & Hr2 & Hq2).
    exists (t1 ++ t2), q2. by rewrite Ht2, Ht1, life_run_app, Hr1, app_assoc.
  - by exists t1, q1.
Qed.

Create HintDb lives.

#[local] Hint Resolve lives_ret lives_gets : lives.
#[local] Hint Extern 1 (life_step _ _ = Some _) => reflexivity : lives.
#[local] Hint Extern 1 (_ = Idle \/ _ = Reaped) =>
  first [left; reflexivity | right; reflexivity] : lives.
#[local] Hint Extern 2 (lives _ (log _) _) => apply lives_log : lives.
#[local] Hint Extern 2 (lives _ (raise _) _) => apply lives_raise : lives.
#[local] Hint Extern 2 (lives _ (modify _) _) =>
  apply lives_modify_silent; reflexivity : lives.

Ltac live :=
  eapply lives_bind; [solve [eauto with lives] | intros ?].

Lemma lives_run w l args : lives l (_run w args) l.
Proof.
  unfold _run. eapply lives_bind; [|intros ?; apply lives_ret].
  apply lives_log. by destruct l.
Qed.

Lemma lives_chdir l dir : lives l (chdir dir) l.
Proof.
  unfold chdir. live. apply lives_log. by destruct l.
Qed.

Lemma lives_set_buffer l b : lives l (set_buffer b) l.
Proof.
  unfold set_buffer. live. apply lives_log. by destruct l.
Qed.

Lemma lives_erase l : lives l erase l.
Proof. unfold erase. apply lives_log. by destruct l. Qed.

Lemma lives_environ_set l k v : lives l (environ_set k v) l.
Proof. unfold environ_set. eauto with lives. Qed.

#[local] Hint Resolve lives_run lives_chdir lives_set_buffer lives_erase
  lives_environ_set : lives.

Lemma lives_override l src dst : lives l (override_from_xsh_env src dst) l.
Proof.
  unfold override_from_xsh_env. live. destruct (_ !! src); eauto with lives.
Qed.

Lemma lives_get_fzf_binary_path w l :
  l = Idle \/ l = Reaped -> lives l (get_fzf_binary_path w) l.
Proof.
  intros Hl. unfold get_fzf_binary_path.
  eapply lives_bind.
  { unfold get_fzf_binary_name, in_xsh_env.
    eapply lives_bind; [live; eauto with lives|].
    intros []; [live; destruct (Py.truthy _)|]; eauto with lives. }
  intros name. live. destruct (negb _); eauto with lives.
Qed.

#[local] Hint Resolve lives_override lives_get_fzf_binary_path : lives.

Lemma lives_get_fzf_proc w : lives Idle (get_fzf_proc w) Running.
Proof.
  unfold get_fzf_proc, Popen, getcwd. do 5 live. eauto with lives.
Qed.

Lemma lives_stdin_write proc data :
  lives Running (stdin_write proc data) Running.
Proof. unfold stdin_write. live. eauto with lives. Qed.

Lemma lives_close_fzf_proc w proc :
  lives Running (close_fzf_proc w proc) Reaped.
Proof.
  unfold close_fzf_proc. do 3 live.
  destruct (Py.truthy _); [do 3 live|]; eauto with lives.
Qed.

Lemma lives_dir_history_loop items read proc :
  lives Running (dir_history_loop items read proc) Running.
Proof.
  revert read proc. induction items as [|entry items IH]; intros read proc.
  - apply lives_ret.
  - cbn [dir_history_loop].
    destruct (entry !! Py.lit "cwd") as [d|]; [|apply IH].
    destruct (_ && _); [|apply IH].
    eapply lives_bind; [apply lives_stdin_write|]. intros ?. apply IH.
Qed.

Lemma lives_subprocess_run w args input env :
  lives Idle (subprocess_run w args input env) Reaped.
Proof. unfold subprocess_run, getcwd. do 3 live. eauto with lives. Qed.

#[local] Hint Resolve lives_get_fzf_proc lives_stdin_write
  lives_close_fzf_proc lives_dir_history_loop lives_subprocess_run : lives.

Lemma lives_fzf_insert_file w dirs_only :
  lives Idle (fzf_insert_file w dirs_only) Reaped.
Proof.
  unfold fzf_insert_file. live.
  eapply lives_bind.
  { destruct (prefix_of _) as [pre|]; [|apply lives_ret].
    destruct (Py.truthy pre); [|apply lives_ret].
    destruct (complete_path _ _ _ _ _) as [|path [|??]]; try apply lives_ret.
    destruct (isdir _ _); [|apply lives_ret].
    unfold getcwd. do 2 live. apply lives_ret. }
  intros [cwd path]. cbn [fst snd].
  eapply lives_bind; [destruct dirs_only; apply lives_override|].
  intros _. do 4 live.
  eapply lives_bind.
  { destruct cwd as [d|]; [destruct (Py.truthy d)|]; eauto with lives. }
  intros _. live.
  destruct (Py.truthy _); [|apply lives_ret].
  eapply lives_bind.
  { destruct (Py.truthy path); [live|]; eauto with lives. }
  intros _. live. eauto with lives.
Qed.

Lemma lives_outcome {A} (m : M A) l' st :
  lives Idle m l' -> l' = Idle \/ l' = Reaped ->
  exists t, trace (snd (m st)) = trace st ++ t /\ one_child_waited t.
Proof.
  intros H Hl. destruct (H st) as (t & q & Ht & Hr & Hres).
  exists t. split; [done|]. apply (life_run_Idle t q Hr).
  destruct (fst (m st)); by subst.
Qed.


(** ** Further properties: the widgets end to end *)



Lemma dir_history_loop_fed items read proc fed st :
  child_stdin proc = Some fed ->
  fst (dir_history_loop items read proc st) =
  Ok {| argv := argv proc; child_env := child_env proc;
        child_cwd := child_cwd proc;
        child_stdin :=
          Some (fed ++ mjoin (nul_terminated <$>
            filter (fun d => d ∉ read)
              (first_occurrences (recorded_dirs items)))) |}.
Proof.
  revert read proc fed st.
  induction items as [|entry items IH]; intros read proc fed st Hfed.
  - cbn. rewrite app_nil_r, <- Hfed. by destruct proc.
  - cbn [dir_history_loop]. unfold recorded_dirs. cbn [omap list_omap].
    fold (omap (fun entry : gmap str str => entry !! Py.lit "cwd") items).
    destruct (entry !! Py.lit "cwd") as [d|]; [|by apply IH].
    destruct (Py.truthy d) eqn:Hd.
    2:{ assert (d = []) as -> by (by destruct d).
        rewrite filter_cons_False by (by intros H). by apply IH. }
    apply truthy_nonempty in Hd.
    rewrite filter_cons_True by done. cbn [first_occurrences andb].
    fold (recorded_dirs items).
    destruct (bool_decide (d ∈ read)) eqn:Hr; cbn [negb].
    + apply bool_decide_eq_true in Hr.
      rewrite filter_cons_False by (intros H; by apply H).
      rewrite list_filter_filter_l by (intros x Hx ->; by apply Hx).
      by apply IH.
    + apply bool_decide_eq_false in Hr.
      rewrite filter_cons_True by done.
      unfold stdin_write, bind, log, modify, ret. run_state.
      rewrite Hfed. cbn [default]. unfold id.
      rewrite (IH (read ∪ {[d]}) _ (fed ++ d ++ [0%N])) by done.
      cbn [argv child_env child_cwd].
      assert (filter (fun x => x ∉ read ∪ {[d]})
                (first_occurrences (recorded_dirs items))
              = filter (fun x => x ∉ read)
                  (filter (fun y => y ≠ d)
                     (first_occurrences (recorded_dirs items)))) as ->.
      { rewrite list_filter_filter. apply list_filter_iff. intros x.
        by rewrite not_elem_of_union, not_elem_of_singleton. }
      cbn [fmap list_fmap mjoin list_join].
      unfold nul_terminated at 2. by rewrite <- !app_assoc.
Qed.

(** X18: the directory-history widget, end to end: the finder reads the
    recorded directories, deduplicated and NUL-terminated, one after the
    other; what it prints ends up, stripped, as the buffer's text with
    the cursor at its end; an empty answer leaves the buffer alone. *)
Theorem fzf_insert_dir_history_round_trip w st items fzf :
  history w = Some items ->
  fst (get_fzf_binary_path w st) = Ok fzf ->
  let proc :=
    {| argv := popen_args fzf (text (buffer st));
       child_env := os_environ st; child_cwd := cwd st;
       child_stdin :=
         Some (mjoin (nul_terminated <$>
                        first_occurrences (recorded_dirs items))) |} in
  let choice := Py.strip (finder_stdout w proc) in
  buffer (snd (fzf_insert_dir_history w st)) =
    if Py.truthy choice
    then {| text := choice; cursor_position := Py.len choice |}
    else buffer st.
Proof.
  intros Hhist Hfzf%resolved_path proc choice.
  unfold fzf_insert_dir_history. rewrite Hhist.
  unfold bind. rewrite get_fzf_proc_eq, Hfzf. lazy beta iota zeta.
  match goal with
  | |- context [dir_history_loop ?l ∅ ?p ?s] =>
      pose proof (dir_history_loop_fed l ∅ p [] s eq_refl) as Hfed;
      destruct (dir_history_loop_eq l ∅ p [] s eq_refl) as (proc' & Heq & _)
  end.
  rewrite Heq in Hfed |- *. cbn [fst] in Hfed. injection Hfed as ->.
  rewrite filter_unseen_empty by done. cbn [app piped argv child_env child_cwd].
  rewrite close_fzf_proc_eq. lazy beta iota zeta. fold proc. fold choice.
  by destruct (Py.truthy choice).
Qed.

Lemma fzf_insert_dir_history_round_trip_witness :
  let w := Sample.world "/b " in
  let st := Sample.state ∅ "" in
  history w = Some [Sample.entry "/a"; Sample.entry "/b"; Sample.entry "/a"] /\
  fst (get_fzf_binary_path w st) = Ok (Py.lit "/usr/bin/fzf") /\
  buffer (snd (fzf_insert_dir_history w st))
  = {| text := Py.lit "/b"; cursor_position := 2 |}.
Proof.
  intros w st. split; [reflexivity|]. split; [reflexivity|].
  pose proof (fzf_insert_dir_history_round_trip w st
                [Sample.entry "/a"; Sample.entry "/b"; Sample.entry "/a"]
                (Py.lit "/usr/bin/fzf")) as T.
  exact (T ltac:(reflexivity) ltac:(vm_compute; reflexivity)).
Defined.

(** X19: the ssh handler: the finder is given the host names, one per line,
    on its standard input; the host it prints is inserted at the cursor
    after the word [ssh] and a space; an empty answer leaves the buffer
    alone. *)
Theorem fzf_ssh_inserts_host w st before rest fzf :
  buffer st = {| text := before ++ rest; cursor_position := Py.len before |} ->
  fst (get_fzf_binary_path w st) = Ok fzf ->
  let config :=
    subproc_captured_stdout w
      [Py.lit "cat"; Py.lit "~/.ssh/config"; Py.lit "/etc/ssh/ssh_config"] in
  let proc :=
    {| argv := [fzf; Py.lit "--tiebreak=index"; Py.lit "+m";
                Py.lit "--reverse"; Py.lit "--height=40%"];
       child_env := os_environ st; child_cwd := cwd st;
       child_stdin := Some (Py.join [10%N] (findall_hosts w config)) |} in
  let choice := Py.strip (finder_stdout w proc) in
  let outcome := call w fzf_ssh st in
  fst outcome = Ok tt /\
  spawned (trace (snd outcome)) = spawned (trace st) ++ [proc] /\
  buffer (snd outcome) =
    if Py.truthy choice
    then {| text := before ++ (Py.lit "ssh " ++ choice) ++ rest;
            cursor_position := Py.len (before ++ Py.lit "ssh " ++ choice) |}
    else buffer st.
Proof.
  intros Hb Hfzf%resolved_path config proc choice outcome. subst outcome.
  cbn [call]. unfold fzf_prompt_from_string, _run, bind, log, modify, ret.
  run_state. rewrite get_fzf_binary_path_eq. run_state. rewrite Hfzf.
  unfold subprocess_run, getcwd, erase, set_buffer, extend, bind, gets, ret,
    log, modify. run_state. fold config. fold proc. fold choice.
  destruct (Py.truthy choice); run_state;
    (split; [done|]); (split;
      [rewrite !spawned_app, spawned_resolution_runs;
       cbn [spawned omap list_omap spawned_child app];
       by rewrite ?app_nil_r|]).
  - by rewrite Hb, insert_at.
  - done.
Qed.

Lemma fzf_ssh_inserts_host_witness :
  let w := Sample.world "build.example.org" in
  let st := Sample.state ∅ "" in
  buffer st = {| text := [] ++ []; cursor_position := Py.len [] |} /\
  fst (get_fzf_binary_path w st) = Ok (Py.lit "/usr/bin/fzf") /\
  buffer (snd (call w fzf_ssh st))
  = {| text := Py.lit "ssh build.example.org"; cursor_position := 21 |}.
Proof.
  intros w st. split; [reflexivity|]. split; [reflexivity|].
  pose proof (fzf_ssh_inserts_host w st [] [] (Py.lit "/usr/bin/fzf")) as T.
  destruct T as (_ & _ & Hbuf);
    [vm_compute; reflexivity | vm_compute; reflexivity |].
  exact Hbuf.
Defined.

(** ** Further properties: when the finder is missing *)

Lemma resolution_runs_only_run w xenv :
  Forall (fun e => match e with EvRun _ | EvChdir _ => True | _ => False end)
    (resolution_runs w xenv).
Proof.
  unfold resolution_runs. destruct (xenv !! Py.lit "TMUX"); by repeat constructor.
Qed.

(** X20: when nothing resolves on the search path, a handler starts no
    process, writes to no pipe, does not erase the display and does not
    touch the buffer: it only runs helper commands and, in the file
    widget, may already have changed directory. *)
Theorem handler_not_found_starts_nothing w h st :
  (forall name, subproc_captured_stdout w [Py.lit "which"; name] = []) ->
  exists t,
    trace (snd (call w h st)) = trace st ++ t /\
    Forall (fun e => match e with EvRun _ | EvChdir _ => True | _ => False end)
      t.
Proof.
  intros H.
  assert (forall dirs_only, exists t,
    trace (snd (fzf_insert_file w dirs_only st)) = trace st ++ t /\
    Forall (fun e => match e with EvRun _ | EvChdir _ => True | _ => False end)
      t) as Hfile.
  { intros dirs_only.
    destruct dirs_only; enter_fzf_insert_file;
      rewrite (binary_path_of_missing _ _ H); unfold extend; run_state;
      eexists; (split; [rewrite <- ?app_assoc; reflexivity|]);
      rewrite ?Forall_app, ?Forall_cons; repeat split;
      first [apply resolution_runs_only_run | done]. }
  destruct h; cbn [call]; try apply Hfile.
  - unfold fzf_insert_history, bind.
    rewrite get_fzf_proc_eq, (binary_path_of_missing _ _ H).
    eexists. split; [reflexivity|apply resolution_runs_only_run].
  - unfold fzf_prompt_from_string, _run, bind, log, modify, ret. run_state.
    rewrite get_fzf_binary_path_eq, (binary_path_of_missing _ _ H).
    unfold extend. run_state.
    eexists. split; [rewrite <- app_assoc; reflexivity|].
    constructor; [done|apply resolution_runs_only_run].
  - unfold fzf_insert_dir_history. destruct (history w).
    + unfold bind.
      rewrite get_fzf_proc_eq, (binary_path_of_missing _ _ H).
      eexists. split; [reflexivity|apply resolution_runs_only_run].
    + exists []. split; [by rewrite app_nil_r|constructor].
Qed.

Lemma handler_not_found_starts_nothing_witness :
  let w := Sample.without_finder (Sample.world "") in
  let st := Sample.state ∅ "cat fo" in
  (forall name, subproc_captured_stdout w [Py.lit "which"; name] = []) /\
  spawned (trace (snd (call w fzf_file st))) = [].
Proof.
  intros w st.
  assert (forall name, subproc_captured_stdout w [Py.lit "which"; name] = [])
    as Hnone by reflexivity.
  split; [exact Hnone|].
  destruct (handler_not_found_starts_nothing w fzf_file st Hnone)
    as (t & Ht & Hall).
  rewrite Ht. cbn [Sample.state trace app]. clear Ht.
  induction Hall as [|e t He _ IH]; [reflexivity|].
  destruct e; try done; exact IH.
Defined.

(** X21: the file widget changes directory only for a single completion
    that is a directory: in every other case the working directory is
    never touched, however the widget ends, and the finder, when it is
    started, runs in the directory the widget was called in. *)
Theorem fzf_insert_file_stays_put w dirs_only st :
  let before_cursor := Ptk.current_line_before_cursor (buffer st) in
  (forall pre path,
     prefix_of before_cursor = Some pre ->
     complete_path w (normpath w pre) before_cursor 0 (Py.len before_cursor)
       = [path] ->
     isdir w (expanduser w path) = false) ->
  cwd (snd (fzf_insert_file w dirs_only st)) = cwd st /\
  Forall (fun proc => child_cwd proc = cwd st)
    (drop (length (spawned (trace st)))
       (spawned (trace (snd (fzf_insert_file w dirs_only st))))).
Proof.
  intros bc Hnodir.
  unfold fzf_insert_file, bind, gets; run_state; fold bc.
  destruct (prefix_of bc) as [pre|] eqn:Hpre;
    [specialize (Hnodir pre); destruct (Py.truthy pre);
       [destruct (complete_path _ _ _ _ _) as [|path [|??]];
          [|rewrite (Hnodir path eq_refl eq_refl)|]|]|];
    unfold getcwd, chdir, bind, gets, ret, log, modify; run_state;
    destruct dirs_only;
    rewrite !override_from_xsh_env_eq; run_state;
    rewrite get_fzf_binary_path_eq; run_state;
    (destruct (binary_path_of _ _); run_state;
     [|split; [done|];
       unfold extend; run_state;
       rewrite spawned_app, spawned_resolution_runs, app_nil_r, drop_all;
       constructor]);
    finish_fzf_insert_file;
    repeat (match goal with
            | |- context [Py.truthy ?x] => destruct (Py.truthy x)
            end; run_state);
    (split; [done|]);
    rewrite !spawned_app, spawned_resolution_runs;
    cbn [spawned omap list_omap spawned_child app];
    rewrite ?app_nil_r, drop_app_length; by repeat constructor.
Qed.

Lemma fzf_insert_file_stays_put_witness :
  let w := Sample.world "notes.txt" in
  let st := Sample.state ∅ "vim " in
  prefix_of (Ptk.current_line_before_cursor (buffer st)) = None /\
  cwd (snd (fzf_insert_file w false st)) = Py.lit "/home/me" /\
  child_cwd <$> spawned (trace (snd (fzf_insert_file w false st)))
    = [Py.lit "/home/me"].
Proof.
  intros w st. split; [reflexivity|].
  pose proof (fzf_insert_file_stays_put w false st) as T.
  destruct T as [Hcwd _]; [intros pre path; vm_compute; discriminate|].
  split; [exact Hcwd|reflexivity].
Defined.
